(** * CraftConnect: the Shopify product-publishing pipeline

    A shallow embedding of the Shopify routes module of the backend (the
    one the API router mounts under [/shopify]): the [/upload-product]
    route and its three helpers [processImageForShopify],
    [uploadImageToShopify] and [createShopifyProduct], together with the
    properties of the pipeline that the specification states.  Line
    numbers refer to that module.

    Modelling conventions.
    - A JavaScript value is a [JsValue]; a number is an IEEE-754 double
      ([spec_float]); an object parsed from JSON is a finite map from
      property names to values.
    - A JavaScript string is a [string]; one [ascii] stands for one code
      unit.  Only prefix tests, [split], [substring], [replace] and
      concatenation are used, all of which work per code unit.
    - An [async] function is a computation in the monad [M]: it threads the
      [World] (the state of the outside world, the requests sent so far and
      the caller's session) and either returns or throws a [JsError].
      [await] is bind; [try { } catch { }] is [try_catch].
    - The libraries the route calls (axios, sharp, the clock, the JSON and
      number printers, base64 decoding) are the fields of the class
      [Platform]; nothing is assumed about what they answer.
    - [console.log] and friends are not modelled. *)

From Stdlib Require Import String Ascii ZArith NArith List Bool Lia.
From Stdlib Require Import Floats.SpecFloat.
From stdpp Require Import base option list gmap strings pretty.

#[local] Set Warnings "-register-all".
#[local] Open Scope string_scope.

(* ===================================================================== *)
(** ** JavaScript values and the string primitives the route uses *)
(* ===================================================================== *)

Module Js.

Definition Buffer := list Byte.byte.

Inductive JsValue : Type :=
| JUndefined
| JNull
| JBool (b : bool)
| JNum (f : spec_float)
| JStr (s : string)
| JBuffer (b : Buffer)
| JArr (l : list JsValue)
| JObj (m : gmap string JsValue).

(** The double [1]. *)
Definition one : spec_float := S754_finite false 1 0.

(** [ToBoolean]: [undefined], [null], [false], [+0], [-0], [NaN] and the
    empty string are falsy, everything else is truthy. *)
Definition truthy (v : JsValue) : bool :=
  match v with
  | JUndefined | JNull => false
  | JBool b => b
  | JNum (S754_zero _) | JNum S754_nan => false
  | JNum _ => true
  | JStr s => negb (String.eqb s EmptyString)
  | JBuffer _ | JArr _ | JObj _ => true
  end.

(** [a || b] *)
Definition or_else (a b : JsValue) : JsValue := if truthy a then a else b.

(** [a && b] *)
Definition and_then (a b : JsValue) : JsValue := if truthy a then b else a.

(** [v.k] for the property names this route reads ([upload], [public_url],
    [id], [key], [product], [handle], [title], [errors]): none of them is a
    built-in property of a string, number, boolean, array or buffer, so
    only a parsed object can carry them.  Every call site reads from a
    truthy value or through [?.], so the nullish receivers never throw. *)
Definition get (v : JsValue) (k : string) : JsValue :=
  match v with
  | JObj m => default JUndefined (m !! k)
  | _ => JUndefined
  end.

(** [v?.k] *)
Definition get_opt (v : JsValue) (k : string) : JsValue :=
  match v with
  | JUndefined | JNull => JUndefined
  | _ => get v k
  end.

(** [s.startsWith(p)] *)
Definition startsWith (s p : string) : bool := String.prefix p s.

Fixpoint drop_chars (n : nat) (s : string) : string :=
  match n, s with
  | O, _ => s
  | S n', EmptyString => EmptyString
  | S n', String _ s' => drop_chars n' s'
  end.

(** [s.replace(pat, rep)] with a string pattern: the first occurrence of
    [pat] in [s] is replaced, nothing else.  ([rep] holds no [$] here.) *)
Fixpoint replace_first (pat rep s : string) : string :=
  if String.prefix pat s then rep +:+ drop_chars (String.length pat) s
  else match s with
       | EmptyString => EmptyString
       | String c s' => String c (replace_first pat rep s')
       end.

(** [s.split(',')]: the pieces between the separators; never empty. *)
Fixpoint split_on (sep : ascii) (s : string) : list string :=
  match s with
  | EmptyString => [EmptyString]
  | String c s' =>
      if Ascii.eqb c sep then EmptyString :: split_on sep s'
      else match split_on sep s' with
           | piece :: pieces => String c piece :: pieces
           | [] => [String c EmptyString]
           end
  end.

(** [s.substring(0, n)] *)
Definition substring0 (n : nat) (s : string) : string := String.substring 0 n s.

(** [[^/.]*$] *)
Fixpoint no_slash_or_dot (s : string) : bool :=
  match s with
  | EmptyString => true
  | String c s' =>
      negb (Ascii.eqb c "/") && negb (Ascii.eqb c ".") && no_slash_or_dot s'
  end.

(** [filename.replace(/\.[^/.]+$/, ".jpg")]: the leftmost dot that is
    followed, up to the end, by one or more characters other than [/] and
    [.] starts the match. *)
Fixpoint replace_extension (s : string) : string :=
  match s with
  | EmptyString => EmptyString
  | String c s' =>
      if Ascii.eqb c "." && negb (String.eqb s' EmptyString) && no_slash_or_dot s'
      then ".jpg"
      else String c (replace_extension s')
  end.

(** [shopUrl.replace(/^https?:\/\//, '')] *)
Definition strip_scheme (s : string) : string :=
  if String.prefix "https://" s then drop_chars 8 s
  else if String.prefix "http://" s then drop_chars 7 s
  else s.

End Js.
Export Js.

(* ===================================================================== *)
(** ** Data exchanged with the commerce platform and with the caller *)
(* ===================================================================== *)

(** The object [processImageForShopify] returns. *)
Module ImageData.
Record t := make { buffer : Buffer; filename : string; mimetype : string }.
End ImageData.

(** The object [uploadImageToShopify] returns. *)
Module UploadResult.
Record t := make
  { success : bool; uploadId : JsValue; publicUrl : string; filename : JsValue }.
End UploadResult.

(** The JSON body of the product-creation request, [{ product: {...} }]. *)
Module Product.
Record Variant := make_variant
  { price : string;
    inventory_quantity : JsValue;
    inventory_management : string;
    inventory_policy : string }.
Record Image := make_image { src : string }.
Record t := make
  { title : JsValue;
    body_html : JsValue;
    vendor : JsValue;
    product_type : JsValue;
    status : JsValue;
    variants : list Variant;
    images : list Image;
    tags : JsValue;
    metafields_global_title_tag : JsValue;
    metafields_global_description_tag : string }.
End Product.

(** The first argument of [createShopifyProduct]:
  [{ title, description, price, ...otherData }]. *)
Module ProductData.
Record t := make
  { title : JsValue;
    description : JsValue;
    price : JsValue;
    vendor : JsValue;
    productType : JsValue;
    status : JsValue;
    tags : JsValue;
    inventory : JsValue }.
End ProductData.

(** What [createShopifyProduct] returns. *)
Module ProductResult.
Record t := make
  { success : bool; product : JsValue; productUrl : string; adminUrl : string }.
End ProductResult.

(** [req.body] once [validateProductData] has let the request through:
  [shopUrl] and [accessToken] are strings, [images] is an array
  (defaulting to the empty one); an absent optional field is
  [JUndefined]. *)
Module Body.
Record t := make
  { title : JsValue;
    description : JsValue;
    price : JsValue;
    shopUrl : string;
    accessToken : string;
    images : list JsValue;
    vendor : JsValue;
    productType : JsValue;
    status : JsValue;
    tags : JsValue;
    inventory : JsValue }.
End Body.

(** One element of [req.session.shopifyUploads]. *)
Module UploadRecord.
Record t := make
  { productId : JsValue; title : JsValue; imageUrls : list string; timestamp : N }.
End UploadRecord.

(** [req.session]: [shopifyUploads] is missing until the first upload. *)
Record Session := { shopifyUploads : option (list UploadRecord.t) }.

(** An HTTP response as axios presents it, and the errors that travel
    through [throw]: an axios failure carries the response if there was
    one, a plain [new Error(msg)] carries none. *)
Record Response := { status : Z; data : JsValue }.
Record JsError := { message : string; response : option Response }.

Definition Error (msg : string) : JsError :=
  {| message := msg; response := None |}.

(** [error.response?.status === code] *)
Definition status_is (error : JsError) (code : Z) : bool :=
  match response error with
  | Some r => Z.eqb (status r) code
  | None => false
  end.

Inductive Method := GET | POST.

Inductive Payload :=
| NoPayload
| Multipart (attachment : Buffer) (filename contentType : string)
| Json (product : Product.t).

(** A request handed to axios; [token] is the [X-Shopify-Access-Token]
    header, [timeout] is in milliseconds. *)
Record Request :=
  { method : Method;
    url : string;
    token : option string;
    payload : Payload;
    timeout : Z }.

(** What the route answers: [res.json({success: true, ...})] or
    [res.status(500).json({success: false, ...})]. *)
Inductive Reply :=
| ReplyOk (product : JsValue) (productUrl adminUrl : string)
          (imageUrls : list string) (imageCount : nat) (timestamp : N)
| ReplyError (code : Z) (error message : string) (timestamp : N).

(* ===================================================================== *)
(** ** Effects: the world, the platform, and the monad of async code *)
(* ===================================================================== *)

(** The libraries and remote parties the route talks to.  [Env] is the
    state of everything outside the process; each call may change it. *)
Class Platform (Env : Type) := {
  (** [axios.get(url, {responseType: 'arraybuffer'})]: the body, or a rejection *)
  axios_get : Request → Env → (Buffer + JsError) * Env;
  (** [axios.post]: resolves with the response or rejects *)
  axios_post : Request → Env → (Response + JsError) * Env;
  (** [sharp(buf).resize(2048, 2048, {fit: 'inside', withoutEnlargement:
      true}).jpeg({quality: 85, progressive: true, mozjpeg: true}).toBuffer()] *)
  sharp_jpeg : Buffer → Env → (Buffer + JsError) * Env;
  (** [Date.now()] *)
  Date_now : Env → N * Env;
  (** [Buffer.from(s, 'base64')] *)
  Buffer_from_base64 : string → Buffer;
  (** [`${JSON.stringify(v)}`] *)
  JSON_stringify : JsValue → string;
  (** [String(n)] for a number *)
  Number_toString : spec_float → string;
  (** [String(v)] for an array, an object or a buffer; the conversion
      can throw (an object whose [toString] is not callable) *)
  String_of : JsValue → string + JsError
}.

Record World (Env : Type) := mkWorld
  { env : Env; sent : list Request; session : Session }.
Arguments mkWorld {Env}.
Arguments env {Env}.
Arguments sent {Env}.
Arguments session {Env}.

Inductive Outcome (A : Type) :=
| Returned (a : A)
| Thrown (e : JsError).
Arguments Returned {A}.
Arguments Thrown {A}.

Definition M (Env A : Type) : Type := World Env → Outcome A * World Env.

#[global] Instance M_ret {Env} : MRet (M Env) :=
  λ A a w, (Returned a, w).

#[global] Instance M_bind {Env} : MBind (M Env) :=
  λ A B k m w,
    match m w with
    | (Returned a, w') => k a w'
    | (Thrown e, w') => (Thrown e, w')
    end.

Definition throw {Env A} (e : JsError) : M Env A := λ w, (Thrown e, w).

(** [try { body } catch (error) { handler error }]: what [body] did to the
    world before it threw stays done. *)
Definition try_catch {Env A} (body : M Env A) (handler : JsError → M Env A)
  : M Env A :=
  λ w,
    match body w with
    | (Returned a, w') => (Returned a, w')
    | (Thrown e, w') => handler e w'
    end.

(** A step that touches nothing: it returns or throws. *)
Definition lift {Env A} (r : A + JsError) : M Env A :=
  λ w, match r with
       | inl a => (Returned a, w)
       | inr e => (Thrown e, w)
       end.

(** Run a platform call against the outside world. *)
Definition call {Env A} (f : Env → (A + JsError) * Env) : M Env A :=
  λ w,
    match f (env w) with
    | (inl a, e) => (Returned a, mkWorld e (sent w) (session w))
    | (inr err, e) => (Thrown err, mkWorld e (sent w) (session w))
    end.

Definition record_request {Env} (r : Request) : M Env unit :=
  λ w, (Returned tt, mkWorld (env w) (sent w ++ [r])%list (session w)).

Definition now `{Platform Env} : M Env N :=
  λ w, let '(t, e) := Date_now (env w) in
       (Returned t, mkWorld e (sent w) (session w)).

Definition get_session {Env} : M Env Session := λ w, (Returned (session w), w).

Definition set_session {Env} (s : Session) : M Env unit :=
  λ w, (Returned tt, mkWorld (env w) (sent w) s).

(** [await axios.get(url, { responseType: 'arraybuffer', timeout })] *)
Definition get_bytes `{Platform Env} (u : string) (ms : Z) : M Env Buffer :=
  let r := {| method := GET; url := u; token := None;
              payload := NoPayload; timeout := ms |} in
  _ ← record_request r; call (axios_get r).

(** [await axios.post(url, body, { headers: {'X-Shopify-Access-Token':
    accessToken, ...}, timeout })] *)
Definition post `{Platform Env} (u accessToken : string) (body : Payload) (ms : Z)
  : M Env Response :=
  let r := {| method := POST; url := u; token := Some accessToken;
              payload := body; timeout := ms |} in
  _ ← record_request r; call (axios_post r).

(* ===================================================================== *)
(** ** The route: [POST /upload-product] and its helpers *)
(* ===================================================================== *)

Section Shopify.
Context {Env : Type} {platform : Platform Env}.

#[local] Abbreviation M := (M Env).

(** [`${v}`] *)
Definition template (v : JsValue) : string + JsError :=
  match v with
  | JStr s => inl s
  | JUndefined => inl "undefined"
  | JNull => inl "null"
  | JBool true => inl "true"
  | JBool false => inl "false"
  | JNum f => inl (Number_toString f)
  | _ => String_of v
  end.

(** [v.toString()]: a parsed object that has a [toString] entry of its
    own has one that is not a function. *)
Definition toString (v : JsValue) : string + JsError :=
  match v with
  | JUndefined => inr (Error "Cannot read properties of undefined (reading 'toString')")
  | JNull => inr (Error "Cannot read properties of null (reading 'toString')")
  | JObj m =>
      match m !! "toString" with
      | Some _ => inr (Error "productData.price.toString is not a function")
      | None => String_of v
      end
  | _ => template v
  end.

(** [v.replace('http://', 'https://')] on a value that need not be a string *)
Definition replace_scheme (v : JsValue) : string + JsError :=
  match v with
  | JStr s => inl (replace_first "http://" "https://" s)
  | JUndefined => inr (Error "Cannot read properties of undefined (reading 'replace')")
  | JNull => inr (Error "Cannot read properties of null (reading 'replace')")
  | _ => inr (Error "response.data.upload.public_url.replace is not a function")
  end.

(** [v.substring(0, 160)] on a value that need not be a string *)
Definition substring_0_160 (v : JsValue) : string + JsError :=
  match v with
  | JStr s => inl (substring0 160 s)
  | JUndefined => inr (Error "Cannot read properties of undefined (reading 'substring')")
  | JNull => inr (Error "Cannot read properties of null (reading 'substring')")
  | _ => inr (Error "productData.description.substring is not a function")
  end.

(** Lines 18-50. *)
Definition processImageForShopify (imageBuffer : Buffer) (filename : string)
  : M ImageData.t :=
  try_catch
    (processedImage ← call (sharp_jpeg imageBuffer);
     mret {| ImageData.buffer := processedImage;
             ImageData.filename := replace_extension filename;
             ImageData.mimetype := "image/jpeg" |})
    (λ error, throw (Error ("Image processing failed: " +:+ message error))).

(** Lines 53-111. *)
Definition uploadImageToShopify (imageData : ImageData.t)
    (shopUrl accessToken : string) : M UploadResult.t :=
  try_catch
    (let apiUrl := "https://" +:+ shopUrl +:+ "/admin/api/2023-10/uploads.json" in
     response ← post apiUrl accessToken
                  (Multipart (ImageData.buffer imageData)
                             (ImageData.filename imageData)
                             (ImageData.mimetype imageData))
                  30000;
     if truthy (and_then (data response) (get (data response) "upload")) then
       let upload := get (data response) "upload" in
       httpsUrl ← lift (replace_scheme (get upload "public_url"));
       mret {| UploadResult.success := true;
               UploadResult.uploadId := get upload "id";
               UploadResult.publicUrl := httpsUrl;
               UploadResult.filename := get upload "key" |}
     else throw (Error "Invalid response from Shopify upload API"))
    (λ error,
       if status_is error 401 then throw (Error "Invalid Shopify access token")
       else if status_is error 422 then throw (Error "Invalid image data or format")
       else throw (Error ("Shopify upload failed: " +:+ message error))).

(** Lines 124-147: the object literal [product], evaluated in source
    order; [price.toString()] and [description.substring] are the two
    places that can throw. *)
Definition productPayload (productData : ProductData.t) (imageUrls : list string)
  : M Product.t :=
  let httpsImageUrls := map (replace_first "http://" "https://") imageUrls in
  priceText ← lift (toString (ProductData.price productData));
  metaDescription ← lift (substring_0_160 (ProductData.description productData));
  mret {| Product.title := ProductData.title productData;
          Product.body_html := ProductData.description productData;
          Product.vendor := or_else (ProductData.vendor productData) (JStr "CraftConnect");
          Product.product_type :=
            or_else (ProductData.productType productData) (JStr "Handmade");
          Product.status := or_else (ProductData.status productData) (JStr "draft");
          Product.variants :=
            [ {| Product.price := priceText;
                 Product.inventory_quantity :=
                   or_else (ProductData.inventory productData) (JNum one);
                 Product.inventory_management := "shopify";
                 Product.inventory_policy := "deny" |} ];
          Product.images := map Product.make_image httpsImageUrls;
          Product.tags :=
            or_else (ProductData.tags productData) (JStr "handmade,craft,artisan");
          Product.metafields_global_title_tag := ProductData.title productData;
          Product.metafields_global_description_tag := metaDescription |}.

(** [error.response.data?.errors] in the 422 branch *)
Definition response_errors (error : JsError) : JsValue :=
  match response error with
  | Some r => get_opt (data r) "errors"
  | None => JUndefined
  end.

(** Lines 114-189. *)
Definition createShopifyProduct (productData : ProductData.t)
    (imageUrls : list string) (shopUrl accessToken : string)
  : M ProductResult.t :=
  try_catch
    (let apiUrl := "https://" +:+ shopUrl +:+ "/admin/api/2023-10/products.json" in
     product ← productPayload productData imageUrls;
     response ← post apiUrl accessToken (Json product) 30000;
     if truthy (and_then (data response) (get (data response) "product")) then
       let created := get (data response) "product" in
       handle ← lift (template (get created "handle"));
       id ← lift (template (get created "id"));
       mret {| ProductResult.success := true;
               ProductResult.product := created;
               ProductResult.productUrl := "https://" +:+ shopUrl +:+ "/products/" +:+ handle;
               ProductResult.adminUrl := "https://" +:+ shopUrl +:+ "/admin/products/" +:+ id |}
     else throw (Error "Invalid response from Shopify product creation API"))
    (λ error,
       if status_is error 401 then throw (Error "Invalid Shopify access token")
       else if status_is error 422 then
         throw (Error ("Product validation failed: " +:+ JSON_stringify (response_errors error)))
       else throw (Error ("Shopify product creation failed: " +:+ message error))).

(** Lines 229-252: turn one element of [images] into bytes. *)
Definition readImage (image : JsValue) : M Buffer :=
  match image with
  | JStr s =>
      if startsWith s "data:image/" then
        match split_on "," s !! 1%nat with
        | Some base64Data => mret (Buffer_from_base64 base64Data)
        | None =>
            throw (Error "The first argument must be of type string or an instance of Buffer, ArrayBuffer, or Array or an Array-like Object. Received undefined")
        end
      else if startsWith s "http://" || startsWith s "https://" then
        get_bytes s 15000
      else throw (Error "Invalid image format")
  | JBuffer b => mret b
  | _ => throw (Error "Unsupported image type")
  end.

(** Lines 229-265: everything inside the [try] for image [i] up to and
    including the upload. *)
Definition attemptImage (i : nat) (image : JsValue) (shopUrl accessToken : string)
  : M UploadResult.t :=
  imageBuffer ← readImage image;
  stamp ← now;
  processedImage ←
    processImageForShopify imageBuffer
      ("product_image_" +:+ pretty (i + 1)%nat +:+ "_" +:+ pretty stamp +:+ ".jpg");
  uploadImageToShopify processedImage (strip_scheme shopUrl) accessToken.

(** Lines 226-276: one turn of the loop, from the [imageUrls] so far to
    the [imageUrls] after it. *)
Definition processImage (i : nat) (image : JsValue) (shopUrl accessToken : string)
    (imageUrls : list string) : M (list string) :=
  try_catch
    (uploadResult ← attemptImage i image shopUrl accessToken;
     if UploadResult.success uploadResult
     then mret (imageUrls ++ [UploadResult.publicUrl uploadResult])%list
     else mret imageUrls)
    (λ imageError, mret imageUrls).

(** Lines 225-277: [for (let i = ...; i < images.length; i++)], entered
    with [images.slice(i)]. *)
Fixpoint uploadLoop (i : nat) (images : list JsValue) (shopUrl accessToken : string)
    (imageUrls : list string) : M (list string) :=
  match images with
  | [] => mret imageUrls
  | image :: rest =>
      imageUrls' ← processImage i image shopUrl accessToken imageUrls;
      uploadLoop (S i) rest shopUrl accessToken imageUrls'
  end.

(** Lines 219-278. *)
Definition uploadImages (images : list JsValue) (shopUrl accessToken : string)
  : M (list string) :=
  let imageUrls := [] in
  if (0 <? length images)%nat
  then uploadLoop 0 images shopUrl accessToken imageUrls
  else mret imageUrls.

Definition productDataOf (body : Body.t) : ProductData.t :=
  {| ProductData.title := Body.title body;
     ProductData.description := Body.description body;
     ProductData.price := Body.price body;
     ProductData.vendor := Body.vendor body;
     ProductData.productType := Body.productType body;
     ProductData.status := Body.status body;
     ProductData.tags := Body.tags body;
     ProductData.inventory := Body.inventory body |}.

(** Lines 288-298: [req.session.shopifyUploads.push(...)]. *)
Definition storeInSession (productResult : ProductResult.t) (imageUrls : list string)
  : M unit :=
  s ← get_session;
  let uploads := default [] (shopifyUploads s) in
  stamp ← now;
  set_session
    {| shopifyUploads :=
         Some (uploads ++
               [ {| UploadRecord.productId := get (ProductResult.product productResult) "id";
                    UploadRecord.title := get (ProductResult.product productResult) "title";
                    UploadRecord.imageUrls := imageUrls;
                    UploadRecord.timestamp := stamp |} ])%list |}.

(** Lines 208-313: the body of the route's [try]. *)
Definition publish (body : Body.t) : M Reply :=
  imageUrls ← uploadImages (Body.images body) (Body.shopUrl body) (Body.accessToken body);
  productResult ←
    createShopifyProduct (productDataOf body) imageUrls
      (strip_scheme (Body.shopUrl body)) (Body.accessToken body);
  _ ← storeInSession productResult imageUrls;
  stamp ← now;
  mret (ReplyOk (ProductResult.product productResult)
                (ProductResult.productUrl productResult)
                (ProductResult.adminUrl productResult)
                imageUrls (length imageUrls) stamp).

(** Lines 207-329: the route handler; it always answers. *)
Definition uploadProduct (body : Body.t) (w : World Env) : Reply * World Env :=
  match publish body w with
  | (Returned reply, w') => (reply, w')
  | (Thrown error, w') =>
      let '(stamp, e) := Date_now (env w') in
      (ReplyError 500 "Shopify Upload Failed" (message error) stamp,
       mkWorld e (sent w') (session w'))
  end.

End Shopify.

(* ===================================================================== *)
(** ** A scripted platform, to run the route on concrete requests *)
(* ===================================================================== *)

Module Mock.

(** The outside world is a clock (milliseconds); the remote parties
    answer by a fixed script that looks at the request only. *)
Definition scripted
    (on_get : Request → Buffer + JsError)
    (on_post : Request → Response + JsError) : Platform N :=
  {| axios_get := λ r e, (on_get r, e);
     axios_post := λ r e, (on_post r, e);
     sharp_jpeg := λ b e, (inl b, e);
     Date_now := λ e, (e, N.succ e);
     Buffer_from_base64 := λ _, [];
     JSON_stringify := λ _, "<json>";
     Number_toString := λ _, "<number>";
     String_of := λ _, inl "<value>" |}.

Definition endsWith (s suffix : string) : bool :=
  String.eqb
    (drop_chars (String.length s - String.length suffix) s) suffix.

(** The asset endpoint's success shape, [{ upload: { id, public_url, key } }]. *)
Definition upload_ok (public_url : string) : Response :=
  {| status := 200;
     data := JObj {[ "upload" :=
               JObj (<[ "id" := JNum one ]>
                     (<[ "public_url" := JStr public_url ]>
                      {[ "key" := JStr "product_image.jpg" ]})) ]} |}.

(** The product endpoint's success shape, [{ product: { id, handle } }]. *)
Definition product_ok : Response :=
  {| status := 201;
     data := JObj {[ "product" :=
               JObj (<[ "id" := JStr "812" ]> {[ "handle" := JStr "clay-pot" ]}) ]} |}.

(** An axios rejection for a response outside 2xx. *)
Definition rejected (code : Z) (body : JsValue) : JsError :=
  {| message := "Request failed";
     response := Some {| status := code; data := body |} |}.

(** A shop whose asset endpoint hands out [public_url] for every upload
    and whose product endpoint accepts every product. *)
Definition shop (public_url : string) : Platform N :=
  scripted (λ _, inl [])
           (λ r, if endsWith (url r) "/uploads.json"
                 then inl (upload_ok public_url) else inl product_ok).

(** A transport failure: axios rejects without a response. *)
Definition unreachable : JsError :=
  {| message := "connect ETIMEDOUT"; response := None |}.

(** A shop whose asset endpoint stores each upload under the file name it
    was sent with and hands out an [http://] URL for it; the host
    [unreachable.example] cannot be reached for downloads. *)
Definition cdn : Platform N :=
  scripted (λ r, if String.prefix "https://unreachable.example/" (url r)
                 then inr unreachable else inl [])
           (λ r, if endsWith (url r) "/uploads.json"
                 then match payload r with
                      | Multipart _ filename _ =>
                          inl (upload_ok ("http://cdn.shopify.com/s/files/" +:+ filename))
                      | _ => inr (rejected 400 JNull)
                      end
                 else inl product_ok).

(** A shop whose product endpoint answers 422 with field-level errors. *)
Definition strict_shop : Platform N :=
  scripted (λ _, inl [])
           (λ r, if endsWith (url r) "/uploads.json"
                 then inl (upload_ok "https://cdn.shopify.com/s/files/pot.jpg")
                 else inr (rejected 422
                             (JObj {[ "errors" :=
                                JObj {[ "title" := JArr [JStr "can't be blank"] ]} ]}))).

(** A shop that answers every POST with status 200 and the body [{}]. *)
Definition hollow_shop : Platform N :=
  scripted (λ _, inl []) (λ _, inl {| status := 200; data := JObj ∅ |}).

(** 190 characters. *)
Definition long_description : string :=
  String.concat EmptyString (repeat "handmade clay pot, " 10).

Definition start : World N :=
  mkWorld 1700000000000%N [] {| shopifyUploads := None |}.

Definition pixel : ImageData.t :=
  {| ImageData.buffer := []; ImageData.filename := "product_image_1_1.jpg";
     ImageData.mimetype := "image/jpeg" |}.

Definition listing (shopUrl : string) (images : list JsValue) (description : string)
  : Body.t :=
  {| Body.title := JStr "Clay pot";
     Body.description := JStr description;
     Body.price := JStr "12.50";
     Body.shopUrl := shopUrl;
     Body.accessToken := "shpat_1";
     Body.images := images;
     Body.vendor := JUndefined;
     Body.productType := JUndefined;
     Body.status := JUndefined;
     Body.tags := JUndefined;
     Body.inventory := JUndefined |}.

End Mock.

(* ===================================================================== *)
(** ** Vocabulary of the properties *)
(* ===================================================================== *)

Section Vocabulary.
Context {Env : Type} {platform : Platform Env}.

(** What the attempt on one source contributes to [imageUrls]: the
    uploaded URL when the attempt returned, nothing when it threw. *)
Definition contribution (r : Outcome UploadResult.t) : option string :=
  match r with
  | Returned uploadResult =>
      if UploadResult.success uploadResult
      then Some (UploadResult.publicUrl uploadResult) else None
  | Thrown _ => None
  end.

(** The attempts of the loop in input order, each one run in the world the
    previous ones left behind: source by source, the contribution, and the
    world at the end. *)
Fixpoint runImages (i : nat) (images : list JsValue) (shopUrl accessToken : string)
    (w : World Env) : list (option string) * World Env :=
  match images with
  | [] => ([], w)
  | image :: rest =>
      let '(r, w') := attemptImage i image shopUrl accessToken w in
      let '(outcomes, w'') := runImages (S i) rest shopUrl accessToken w' in
      (contribution r :: outcomes, w'')
  end.

(** [imageOutcomes images ... w !! i] is [Some (Some url)] when the upload
    of source [i] succeeded with [url], and [Some None] when it failed. *)
Definition imageOutcomes (images : list JsValue) (shopUrl accessToken : string)
    (w : World Env) : list (option string) :=
  fst (runImages 0 images shopUrl accessToken w).

(** The successes among the outcomes, in order. *)
Definition successes (outcomes : list (option string)) : list string :=
  omap id outcomes.

(** Where the result of source [i] sits among the successes: after the
    results of the sources before it. *)
Definition resultIndex (outcomes : list (option string)) (i : nat) : nat :=
  length (successes (take i outcomes)).

(** A source no branch of lines 232-252 accepts. *)
Definition unsupported (image : JsValue) : Prop :=
  match image with
  | JStr s =>
      startsWith s "data:image/" = false ∧
      startsWith s "http://" = false ∧
      startsWith s "https://" = false
  | JBuffer _ => False
  | _ => True
  end.

(** The part of [publish] that follows the image batch. *)
Definition publishWith (body : Body.t) (imageUrls : list string) : M Env Reply :=
  productResult ←
    createShopifyProduct (productDataOf body) imageUrls
      (strip_scheme (Body.shopUrl body)) (Body.accessToken body);
  _ ← storeInSession productResult imageUrls;
  stamp ← now;
  mret (ReplyOk (ProductResult.product productResult)
                (ProductResult.productUrl productResult)
                (ProductResult.adminUrl productResult)
                imageUrls (length imageUrls) stamp).

(** The two requests the route sends to the shop. *)
Definition uploadRequest (shop accessToken : string) (imageData : ImageData.t)
  : Request :=
  {| method := POST;
     url := "https://" +:+ shop +:+ "/admin/api/2023-10/uploads.json";
     token := Some accessToken;
     payload := Multipart (ImageData.buffer imageData) (ImageData.filename imageData)
                          (ImageData.mimetype imageData);
     timeout := 30000 |}.

Definition productRequest (shop accessToken : string) (product : Product.t)
  : Request :=
  {| method := POST;
     url := "https://" +:+ shop +:+ "/admin/api/2023-10/products.json";
     token := Some accessToken;
     payload := Json product;
     timeout := 30000 |}.

(** A computation respects a relation on worlds when every run takes a
    world to a related one, whether it returns or throws. *)
Definition respects {A} (R : relation (World Env)) (m : M Env A) : Prop :=
  ∀ w, R w (snd (m w)).

(** The session is what it was. *)
Definition same_session : relation (World Env) :=
  λ w w', session w' = session w.

(** Requests were only added, and each added one satisfies [P]. *)
Definition sends_only (P : Request → Prop) : relation (World Env) :=
  λ w w', ∃ new, sent w' = (sent w ++ new)%list ∧ Forall P new.

(** What the image batch may send: downloads of the sources, and uploads
    to the shop. *)
Definition batch_allowed (allowed : Request → Prop) (shop accessToken : string)
  : Prop :=
  (∀ u ms, allowed {| method := GET; url := u; token := None;
                      payload := NoPayload; timeout := ms |}) ∧
  (∀ imageData, allowed (uploadRequest shop accessToken imageData)).

End Vocabulary.

(** Is the URL a secure one? *)
Definition is_https (u : string) : bool := startsWith u "https://".

(** The messages of the two 422 branches (lines 105-106 and 182-184):
    the errors by which the route reports that the platform rejected the
    data. *)
Definition is_validation_error (e : JsError) : bool :=
  String.eqb (message e) "Invalid image data or format"
  || String.prefix "Product validation failed: " (message e).

(** [price] as [validateProductData] lets it through ([isFloat]): a
    number, or a string that reads as one. *)
Definition priced (v : JsValue) : Prop :=
  match v with
  | JNum _ | JStr _ => True
  | _ => False
  end.

(** The image URLs of the product payloads among the requests sent. *)
Definition submitted_image_urls (requests : list Request) : list string :=
  flat_map (λ r, match payload r with
                 | Json product => map Product.src (Product.images product)
                 | _ => []
                 end) requests.

(** The answer of the route to the caller is a server error. *)
Definition is_failure (reply : Reply) : Prop :=
  match reply with
  | ReplyError _ _ _ _ => True
  | ReplyOk _ _ _ _ _ _ => False
  end.

(** The two URLs of the shop [host] the route posts to. *)
Definition posts_to_shop (host : string) (r : Request) : Prop :=
  method r = POST →
  url r = "https://" +:+ host +:+ "/admin/api/2023-10/uploads.json" ∨
  url r = "https://" +:+ host +:+ "/admin/api/2023-10/products.json".

(* ===================================================================== *)
(** ** The read-only routes: [/session-uploads], [/shop-info], [/products] *)
(* ===================================================================== *)

(** The double that holds the integer [z] (binary64, rounded to nearest). *)
Definition Number_of_Z (z : Z) : spec_float := binary_normalize 53 1024 z 0 false.
Arguments Number_of_Z : simpl never.

(** [Math.min(a, b)]: [NaN] when either is, and [-0] below [+0]. *)
Definition Math_min (a b : spec_float) : spec_float :=
  match SFcompare a b with
  | None => S754_nan
  | Some Lt => a
  | Some Gt => b
  | Some Eq =>
      match b with
      | S754_zero true => b
      | _ => a
      end
  end.

(** [v.k] read without a guard: a nullish receiver throws. *)
Definition read (v : JsValue) (k : string) : JsValue + JsError :=
  match v with
  | JUndefined =>
      inr (Error ("Cannot read properties of undefined (reading '" +:+ k +:+ "')"))
  | JNull =>
      inr (Error ("Cannot read properties of null (reading '" +:+ k +:+ "')"))
  | _ => inl (get v k)
  end.

(** [v.length] *)
Definition length_of (v : JsValue) : JsValue + JsError :=
  match v with
  | JUndefined => inr (Error "Cannot read properties of undefined (reading 'length')")
  | JNull => inr (Error "Cannot read properties of null (reading 'length')")
  | JArr l => inl (JNum (Number_of_Z (Z.of_nat (length l))))
  | JStr s => inl (JNum (Number_of_Z (Z.of_nat (String.length s))))
  | JBuffer b => inl (JNum (Number_of_Z (Z.of_nat (length b))))
  | JObj m => inl (default JUndefined (m !! "length"))
  | JBool _ | JNum _ => inl JUndefined
  end.

(** [shopUrl.replace(/^https?:\/\//, '')] on a query parameter, which the
    query parser delivers as a string, an array or an object. *)
Definition strip_scheme_of (shopUrl : JsValue) : string + JsError :=
  match shopUrl with
  | JStr s => inl (strip_scheme s)
  | JUndefined => inr (Error "Cannot read properties of undefined (reading 'replace')")
  | JNull => inr (Error "Cannot read properties of null (reading 'replace')")
  | _ => inr (Error "shopUrl.replace is not a function")
  end.

(** A GET against the admin API of the shop: [query_token] is the
    [X-Shopify-Access-Token] header as the query string held it,
    [query_limit] is [params.limit] when the request has one. *)
Record Query :=
  { query_url : string;
    query_token : JsValue;
    query_limit : option spec_float;
    query_timeout : Z }.

(** What the two routes that read from the shop need from outside. *)
Class ShopApi (Env : Type) := {
  (** [axios.get(url, { headers, params, timeout })] with a JSON answer *)
  axios_get_json : Query → Env → (Response + JsError) * Env;
  (** [parseInt(v)]; converting an object to a string can throw *)
  parseInt : JsValue → spec_float + JsError
}.

(** The answers of the three routes. *)
Inductive ReadReply :=
| SessionUploads (data : list UploadRecord.t) (count : nat) (timestamp : N)
| ShopInfo (data : JsValue) (timestamp : N)
| ProductList (data count : JsValue) (timestamp : N)
| Refused (code : Z) (error message : string)
| ReadFailed (code : Z) (error message : string) (timestamp : N).

Section ReadRoutes.
Context {Env : Type} {platform : Platform Env} {api : ShopApi Env}.

(** Lines 417-439, [GET /session-uploads]. *)
Definition sessionUploads (w : World Env) : ReadReply * World Env :=
  let uploads := default [] (shopifyUploads (session w)) in
  let '(stamp, e) := Date_now (env w) in
  (SessionUploads uploads (length uploads) stamp, mkWorld e (sent w) (session w)).

(** The [catch] of the two routes below: [res.status(500).json(...)]. *)
Definition read_failed (label : string) (error : JsError) (asked : list Query) (e : Env)
  : ReadReply * list Query * Env :=
  let '(stamp, e') := Date_now e in
  (ReadFailed 500 label (message error) stamp, asked, e').

(** Lines 333-370, [GET /shop-info]: the answer, the requests made, and
    the outside world afterwards. *)
Definition shopInfo (shopUrl accessToken : JsValue) (e : Env)
  : ReadReply * list Query * Env :=
  if negb (truthy shopUrl) || negb (truthy accessToken) then
    (Refused 400 "Missing Parameters" "shopUrl and accessToken are required", [], e)
  else
    match strip_scheme_of shopUrl with
    | inr error => read_failed "Shop Info Failed" error [] e
    | inl host =>
        let q := {| query_url := "https://" +:+ host +:+ "/admin/api/2023-10/shop.json";
                    query_token := accessToken;
                    query_limit := None;
                    query_timeout := 10000 |} in
        match axios_get_json q e with
        | (inr error, e1) => read_failed "Shop Info Failed" error [q] e1
        | (inl response, e1) =>
            match read (data response) "shop" with
            | inr error => read_failed "Shop Info Failed" error [q] e1
            | inl shop =>
                let '(stamp, e2) := Date_now e1 in
                (ShopInfo shop stamp, [q], e2)
            end
        end
    end.

(** Lines 373-414, [GET /products]; [limit] defaults to [50]. *)
Definition listProducts (shopUrl accessToken limit : JsValue) (e : Env)
  : ReadReply * list Query * Env :=
  let limit := match limit with
               | JUndefined => JNum (Number_of_Z 50)
               | _ => limit
               end in
  if negb (truthy shopUrl) || negb (truthy accessToken) then
    (Refused 400 "Missing Parameters" "shopUrl and accessToken are required", [], e)
  else
    match strip_scheme_of shopUrl with
    | inr error => read_failed "Products List Failed" error [] e
    | inl host =>
        match parseInt limit with
        | inr error => read_failed "Products List Failed" error [] e
        | inl n =>
            let q := {| query_url :=
                          "https://" +:+ host +:+ "/admin/api/2023-10/products.json";
                        query_token := accessToken;
                        query_limit := Some (Math_min n (Number_of_Z 250));
                        query_timeout := 15000 |} in
            match axios_get_json q e with
            | (inr error, e1) => read_failed "Products List Failed" error [q] e1
            | (inl response, e1) =>
                match read (data response) "products" with
                | inr error => read_failed "Products List Failed" error [q] e1
                | inl products =>
                    match length_of products with
                    | inr error => read_failed "Products List Failed" error [q] e1
                    | inl count =>
                        let '(stamp, e2) := Date_now e1 in
                        (ProductList products count stamp, [q], e2)
                    end
                end
            end
        end
    end.

End ReadRoutes.

(* ===================================================================== *)
(** ** More vocabulary *)
(* ===================================================================== *)

(** The computation adds at most [n] requests to the ones sent. *)
Definition sends_at_most {Env A} (n : nat) (m : M Env A) : Prop :=
  ∀ w, ∃ new, sent (snd (m w)) = (sent w ++ new)%list ∧ (length new ≤ n)%nat.

(** Which requests may carry the access token: the POSTs do, with the
    thirty-second timeout; the downloads of image sources never do. *)
Definition keeps_token (accessToken : string) (r : Request) : Prop :=
  match method r with
  | GET => token r = None ∧ payload r = NoPayload
  | POST => token r = Some accessToken ∧ timeout r = 30000%Z
  end.

(** No comma in the string. *)
Fixpoint no_comma (s : string) : bool :=
  match s with
  | EmptyString => true
  | String c s' => negb (Ascii.eqb c ",") && no_comma s'
  end.

(** The value is not a string. *)
Definition not_a_string (v : JsValue) : Prop :=
  match v with
  | JStr _ => False
  | _ => True
  end.

(** The query goes to [file] of the admin API of the shop named by the
    [shopUrl] parameter, which is a string, and carries the
    [accessToken] parameter as its token. *)
Definition well_aimed (shopUrl accessToken : JsValue) (file : string) (q : Query)
  : Prop :=
  ∃ s, shopUrl = JStr s ∧
       query_url q = "https://" +:+ strip_scheme s +:+ "/admin/api/2023-10/" +:+ file ∧
       query_token q = accessToken.


(** The GET that downloads the image source [source]. *)
Definition downloadRequest (source : string) : Request :=
  {| method := GET; url := source; token := None;
     payload := NoPayload; timeout := 15000 |}.

(** The download the loop makes for the source [image]: one GET of that
    very source when it is a string that is not a data URL and starts
    with [http://] or [https://], and none otherwise. *)
Definition downloads_of (image : JsValue) : list Request :=
  match image with
  | JStr source =>
      if negb (startsWith source "data:image/") &&
         (startsWith source "http://" || startsWith source "https://")
      then [downloadRequest source]
      else []
  | _ => []
  end.

(** The requests one turn of the loop adds for the source [image]: first
    the download of that very source, if it is one to download; then one
    upload to the shop, or nothing. *)
Definition turn_requests (shop accessToken : string) (image : JsValue)
    (requests : list Request) : Prop :=
  ∃ uploads,
    requests = (downloads_of image ++ uploads)%list ∧
    (uploads = [] ∨ ∃ imageData, uploads = [uploadRequest shop accessToken imageData]).

(** What the route may add once the batch is over: the product request,
    or nothing. *)
Definition closing_requests (shop accessToken : string) (requests : list Request)
  : Prop :=
  requests = [] ∨ ∃ product, requests = [productRequest shop accessToken product].

(** More scripted platforms. *)
Module Scenario.

(** Base64, as [Buffer.from(s, 'base64')] reads it: the characters of the
    alphabet (and of the URL-safe one) count, the others are skipped, and
    the padding ends the text. *)
Definition sextet (c : ascii) : option N :=
  let n := N_of_ascii c in
  if (65 <=? n)%N && (n <=? 90)%N then Some (n - 65)%N
  else if (97 <=? n)%N && (n <=? 122)%N then Some (n - 71)%N
  else if (48 <=? n)%N && (n <=? 57)%N then Some (n + 4)%N
  else if (n =? 43)%N || (n =? 45)%N then Some 62%N
  else if (n =? 47)%N || (n =? 95)%N then Some 63%N
  else None.

Fixpoint sextets (s : string) : list N :=
  match s with
  | EmptyString => []
  | String c s' =>
      if Ascii.eqb c "=" then []
      else match sextet c with
           | Some v => v :: sextets s'
           | None => sextets s'
           end
  end.

Fixpoint octets (l : list N) : list N :=
  match l with
  | a :: b :: c :: d :: rest =>
      (a * 4 + b / 16)%N :: ((b mod 16) * 16 + c / 4)%N :: ((c mod 4) * 64 + d)%N
      :: octets rest
  | [a; b; c] => [(a * 4 + b / 16)%N; ((b mod 16) * 16 + c / 4)%N]
  | [a; b] => [(a * 4 + b / 16)%N]
  | _ => []
  end.

Definition base64_decode (s : string) : Buffer :=
  map (λ n, default Byte.x00 (Byte.of_N n)) (octets (sextets s)).

(** The first eight bytes of every PNG file. *)
Definition png_signature : Buffer :=
  [Byte.x89; Byte.x50; Byte.x4e; Byte.x47; Byte.x0d; Byte.x0a; Byte.x1a; Byte.x0a].

Fixpoint starts_as (signature bytes : Buffer) : bool :=
  match signature, bytes with
  | [], _ => true
  | s :: signature', b :: bytes' => Byte.eqb s b && starts_as signature' bytes'
  | _ :: _, [] => false
  end.

(** A stand-in for the image library that reads PNG files only: bytes
    that do not start as a PNG file are rejected the way sharp rejects
    them. *)
Definition reads_png (bytes : Buffer) : Buffer + JsError :=
  if starts_as png_signature bytes then inl bytes
  else inr (Error "Input buffer contains unsupported image format").

(** A shop like [Mock.shop], behind a platform that decodes base64 for
    real and re-encodes PNG files only. *)
Definition studio (public_url : string) : Platform N :=
  {| axios_get := λ _ e, (inl [], e);
     axios_post := λ r e,
       (if Mock.endsWith (url r) "/uploads.json"
        then inl (Mock.upload_ok public_url) else inl Mock.product_ok, e);
     sharp_jpeg := λ bytes e, (reads_png bytes, e);
     Date_now := λ e, (e, N.succ e);
     Buffer_from_base64 := base64_decode;
     JSON_stringify := λ _, "<json>";
     Number_toString := λ _, "<number>";
     String_of := λ _, inl "<value>" |}.

(** A PNG file of one terracotta pixel (69 bytes) in base64, and as a
    data URL. *)
Definition one_pixel_base64 : string :=
  "iVBORw0KGgoAAAANSUhEUgAAAAEAAAABCAIAAACQd1PeAAAADElEQVR42mPYmioLAAMKATiBdGCnAAAAAElFTkSuQmCC".

Definition one_pixel_png : string := "data:image/png;base64," +:+ one_pixel_base64.

(** A shop whose endpoints reject every POST with [code]. *)
Definition rejecting (code : Z) : Platform N :=
  Mock.scripted (λ _, inl []) (λ _, inr (Mock.rejected code JNull)).

(** A network on which nothing can be reached. *)
Definition offline : Platform N :=
  Mock.scripted (λ _, inr Mock.unreachable) (λ _, inr Mock.unreachable).

(** A platform on which the image library rejects every buffer. *)
Definition unreadable : Platform N :=
  {| axios_get := λ _ e, (inl [], e);
     axios_post := λ _ e, (inl Mock.product_ok, e);
     sharp_jpeg := λ _ e, (inr (Error "Input buffer contains unsupported image format"), e);
     Date_now := λ e, (e, N.succ e);
     Buffer_from_base64 := λ _, [];
     JSON_stringify := λ _, "<json>";
     Number_toString := λ _, "<number>";
     String_of := λ _, inl "<value>" |}.

(** A shop whose asset endpoint answers 200 with an [upload] that has an
    id but no [public_url]. *)
Definition keyless : Platform N :=
  Mock.scripted (λ _, inl [])
    (λ _, inl {| status := 200;
                 data := JObj {[ "upload" := JObj {[ "id" := JNum one ]} ]} |}).

(** An admin API that answers every GET with [body]; [parseInt] knows
    the two numerals the examples use. *)
Definition answering (body : JsValue) : ShopApi N :=
  {| axios_get_json := λ _ e, (inl {| status := 200; data := body |}, e);
     parseInt := λ v, match v with
                      | JNum f => inl f
                      | JStr "1000" => inl (Number_of_Z 1000)
                      | JStr "20" => inl (Number_of_Z 20)
                      | _ => inl S754_nan
                      end |}.

(** An admin API that rejects every GET with status 401. *)
Definition unauthorized : ShopApi N :=
  {| axios_get_json :=
       λ _ e, (inr {| message := "Request failed with status code 401";
                      response := Some {| status := 401; data := JNull |} |}, e);
     parseInt := λ _, inl S754_nan |}.

Definition clay_pot : UploadRecord.t :=
  {| UploadRecord.productId := JStr "811";
     UploadRecord.title := JStr "Clay pot";
     UploadRecord.imageUrls := ["https://cdn.shopify.com/s/files/pot.jpg"];
     UploadRecord.timestamp := 1699999999999%N |}.

(** A session that already lists one upload. *)
Definition returning : World N :=
  mkWorld 1700000000000%N [] {| shopifyUploads := Some [clay_pot] |}.

End Scenario.

(* ===================================================================== *)
(** ** String facts *)
(* ===================================================================== *)

Lemma prefix_append (p s : string) : String.prefix p (p +:+ s) = true.
Proof.
  induction p as [|c p IH]; simpl.
  - by destruct s.
  - destruct (ascii_dec c c) as [_|ne]; [exact IH | by destruct ne].
Qed.

Lemma drop_chars_append (p s : string) : drop_chars (String.length p) (p +:+ s) = s.
Proof. induction p as [|c p IH]; simpl; [by destruct s | exact IH]. Qed.

Lemma strip_scheme_https (host : string) : strip_scheme ("https://" +:+ host) = host.
Proof.
  unfold strip_scheme. rewrite prefix_append.
  exact (drop_chars_append "https://" host).
Qed.

Lemma strip_scheme_http (host : string) : strip_scheme ("http://" +:+ host) = host.
Proof.
  unfold strip_scheme. rewrite (prefix_append "http://").
  replace (String.prefix "https://" ("http://" +:+ host)) with false.
  - exact (drop_chars_append "http://" host).
  - simpl. by destruct host.
Qed.

(** The rewrite does what its name says on a lower-case [http://] URL. *)
Lemma replace_first_http (rest : string) :
  replace_first "http://" "https://" ("http://" +:+ rest) = "https://" +:+ rest.
Proof.
  change (replace_first "http://" "https://" ("http://" +:+ rest))
    with (if String.prefix "http://" ("http://" +:+ rest)
          then "https://" +:+ drop_chars (String.length "http://") ("http://" +:+ rest)
          else String "h" (replace_first "http://" "https://" ("ttp://" +:+ rest))).
  by rewrite prefix_append, drop_chars_append.
Qed.

(** An [https://] URL keeps its scheme. *)
Lemma replace_first_https (rest : string) :
  is_https (replace_first "http://" "https://" ("https://" +:+ rest)) = true.
Proof.
  change (replace_first "http://" "https://" ("https://" +:+ rest))
    with ("https://" +:+ replace_first "http://" "https://" rest).
  apply prefix_append.
Qed.

Lemma substring0_length (n : nat) (s : string) :
  (n ≤ String.length s)%nat → String.length (substring0 n s) = n.
Proof.
  unfold substring0. revert s.
  induction n as [|n IH]; intros s Hn.
  - by destruct s.
  - destruct s as [|c s]; simpl in *; [lia |].
    rewrite IH; [done | lia].
Qed.

(* ===================================================================== *)
(** ** Running computations *)
(* ===================================================================== *)

Section Running.
Context {Env : Type} {platform : Platform Env}.

Lemma run_bind {A B} (m : M Env A) (k : A → M Env B) (w : World Env) :
  (m ≫= k) w =
  match m w with
  | (Returned a, w') => k a w'
  | (Thrown e, w') => (Thrown e, w')
  end.
Proof. reflexivity. Qed.

Lemma run_bind_returned {A B} (m : M Env A) (k : A → M Env B) w a w' :
  m w = (Returned a, w') → (m ≫= k) w = k a w'.
Proof. intros Hm. by rewrite run_bind, Hm. Qed.

Lemma run_bind_thrown {A B} (m : M Env A) (k : A → M Env B) w e w' :
  m w = (Thrown e, w') → (m ≫= k) w = (Thrown e, w').
Proof. intros Hm. by rewrite run_bind, Hm. Qed.

Lemma run_try_returned {A} (m : M Env A) (h : JsError → M Env A) w a w' :
  m w = (Returned a, w') → try_catch m h w = (Returned a, w').
Proof. intros Hm. unfold try_catch. by rewrite Hm. Qed.

Lemma run_try_thrown {A} (m : M Env A) (h : JsError → M Env A) w e w' :
  m w = (Thrown e, w') → try_catch m h w = h e w'.
Proof. intros Hm. unfold try_catch. by rewrite Hm. Qed.

(** [post] records the request, then lets the platform answer. *)
Lemma run_post u accessToken body ms (w : World Env) :
  let r := {| method := POST; url := u; token := Some accessToken;
              payload := body; timeout := ms |} in
  post u accessToken body ms w =
  match axios_post r (env w) with
  | (inl resp, e) => (Returned resp, mkWorld e (sent w ++ [r])%list (session w))
  | (inr err, e) => (Thrown err, mkWorld e (sent w ++ [r])%list (session w))
  end.
Proof.
  intros r. unfold post. rewrite run_bind. unfold record_request, call. simpl.
  fold r. by destruct (axios_post r (env w)) as [[resp|err] e].
Qed.

End Running.

(* ===================================================================== *)
(** ** Frame rules: what a computation leaves alone *)
(* ===================================================================== *)

Section Frame.
Context {Env : Type} {platform : Platform Env}.
Variable R : relation (World Env).
Context `{!PreOrder R}.

(** The relation does not look at the outside world ... *)
Hypothesis R_env : ∀ w e, R w (mkWorld e (sent w) (session w)).
(** ... and admits the requests that satisfy [allowed]. *)
Variable allowed : Request → Prop.
Hypothesis R_sent :
  ∀ w r, allowed r → R w (mkWorld (env w) (sent w ++ [r])%list (session w)).

Lemma respects_ret {A} (a : A) : respects R (mret a : M Env A).
Proof. intros w. simpl. reflexivity. Qed.

Lemma respects_throw {A} (e : JsError) : respects R (throw e : M Env A).
Proof. intros w. simpl. reflexivity. Qed.

Lemma respects_bind {A B} (m : M Env A) (k : A → M Env B) :
  respects R m → (∀ a, respects R (k a)) → respects R (m ≫= k).
Proof.
  intros Hm Hk w. rewrite run_bind. specialize (Hm w).
  destruct (m w) as [[a|e] w']; simpl in *; [|done].
  etrans; [exact Hm | apply Hk].
Qed.

Lemma respects_try_catch {A} (m : M Env A) (h : JsError → M Env A) :
  respects R m → (∀ e, respects R (h e)) → respects R (try_catch m h).
Proof.
  intros Hm Hh w. unfold try_catch. specialize (Hm w).
  destruct (m w) as [[a|e] w']; simpl in *; [done|].
  etrans; [exact Hm | apply Hh].
Qed.

Lemma respects_call {A} (f : Env → (A + JsError) * Env) : respects R (call f).
Proof.
  intros w. unfold call. destruct (f (env w)) as [[a|err] e]; simpl; apply R_env.
Qed.

Lemma respects_now : respects R now.
Proof.
  intros w. unfold now. destruct (Date_now (env w)) as [t e]. simpl. apply R_env.
Qed.

Lemma respects_record_request r : allowed r → respects R (record_request r).
Proof. intros Hr w. simpl. by apply R_sent. Qed.

Lemma respects_if {A} (b : bool) (m1 m2 : M Env A) :
  respects R m1 → respects R m2 → respects R (if b then m1 else m2).
Proof. by destruct b. Qed.

Lemma respects_get_bytes u ms :
  allowed {| method := GET; url := u; token := None;
             payload := NoPayload; timeout := ms |} →
  respects R (get_bytes u ms).
Proof.
  intros Hr. unfold get_bytes. apply respects_bind.
  - by apply respects_record_request.
  - intros _. apply respects_call.
Qed.

Lemma respects_post u accessToken body ms :
  allowed {| method := POST; url := u; token := Some accessToken;
             payload := body; timeout := ms |} →
  respects R (post u accessToken body ms).
Proof.
  intros Hr. unfold post. apply respects_bind.
  - by apply respects_record_request.
  - intros _. apply respects_call.
Qed.

Lemma respects_lift {A} (r : A + JsError) : respects R (lift r).
Proof. intros w. destruct r; simpl; reflexivity. Qed.

Lemma respects_processImageForShopify imageBuffer filename :
  respects R (processImageForShopify imageBuffer filename).
Proof.
  apply respects_try_catch.
  - apply respects_bind; [apply respects_call | intros; apply respects_ret].
  - intros; apply respects_throw.
Qed.

Lemma respects_uploadImageToShopify imageData shop accessToken :
  allowed (uploadRequest shop accessToken imageData) →
  respects R (uploadImageToShopify imageData shop accessToken).
Proof.
  intros Hr. apply respects_try_catch.
  - apply respects_bind; [by apply respects_post |].
    intros resp. apply respects_if; [|apply respects_throw].
    apply respects_bind; [apply respects_lift | intros; apply respects_ret].
  - intros e. repeat apply respects_if; apply respects_throw.
Qed.

Lemma respects_productPayload productData imageUrls :
  respects R (productPayload productData imageUrls).
Proof.
  apply respects_bind; [apply respects_lift | intros].
  apply respects_bind; [apply respects_lift | intros].
  apply respects_ret.
Qed.

Lemma respects_createShopifyProduct productData imageUrls shop accessToken :
  (∀ product, allowed (productRequest shop accessToken product)) →
  respects R (createShopifyProduct productData imageUrls shop accessToken).
Proof.
  intros Hr. apply respects_try_catch.
  - apply respects_bind; [apply respects_productPayload | intros product].
    apply respects_bind; [apply respects_post, Hr |].
    intros resp. apply respects_if; [| apply respects_throw].
    apply respects_bind; [apply respects_lift | intros].
    apply respects_bind; [apply respects_lift | intros].
    apply respects_ret.
  - intros e. repeat apply respects_if; apply respects_throw.
Qed.

Lemma respects_readImage image :
  (∀ u ms, allowed {| method := GET; url := u; token := None;
                      payload := NoPayload; timeout := ms |}) →
  respects R (readImage image).
Proof.
  intros Hr.
  destruct image; simpl; try apply respects_throw; try apply respects_ret.
  repeat apply respects_if; try apply respects_throw.
  - destruct (_ !! _); [apply respects_ret | apply respects_throw].
  - apply respects_get_bytes, Hr.
Qed.

Lemma respects_attemptImage i image shopUrl accessToken :
  batch_allowed allowed (strip_scheme shopUrl) accessToken →
  respects R (attemptImage i image shopUrl accessToken).
Proof.
  intros [Hget Hup]. unfold attemptImage.
  apply respects_bind; [by apply respects_readImage | intros].
  apply respects_bind; [apply respects_now | intros].
  apply respects_bind; [apply respects_processImageForShopify | intros].
  apply respects_uploadImageToShopify, Hup.
Qed.

Lemma respects_processImage i image shopUrl accessToken imageUrls :
  batch_allowed allowed (strip_scheme shopUrl) accessToken →
  respects R (processImage i image shopUrl accessToken imageUrls).
Proof.
  intros Hr. apply respects_try_catch.
  - apply respects_bind; [by apply respects_attemptImage | intros].
    apply respects_if; apply respects_ret.
  - intros; apply respects_ret.
Qed.

Lemma respects_uploadLoop images : ∀ i shopUrl accessToken imageUrls,
  batch_allowed allowed (strip_scheme shopUrl) accessToken →
  respects R (uploadLoop i images shopUrl accessToken imageUrls).
Proof.
  induction images as [|image rest IH]; intros i shopUrl accessToken imageUrls Hr.
  - apply respects_ret.
  - simpl. apply respects_bind; [by apply respects_processImage | intros].
    by apply IH.
Qed.

Lemma respects_uploadImages images shopUrl accessToken :
  batch_allowed allowed (strip_scheme shopUrl) accessToken →
  respects R (uploadImages images shopUrl accessToken).
Proof.
  intros Hr. unfold uploadImages.
  apply respects_if; [by apply respects_uploadLoop | apply respects_ret].
Qed.

End Frame.

(* ===================================================================== *)
(** ** The image batch *)
(* ===================================================================== *)

Section OrderedSuccesses.

Lemma successes_app (l1 l2 : list (option string)) :
  successes (l1 ++ l2) = (successes l1 ++ successes l2)%list.
Proof. apply omap_app. Qed.

Lemma successes_length (l : list (option string)) :
  (length (successes l) ≤ length l)%nat.
Proof.
  induction l as [|[u|] l IH]; simpl; [lia | | ].
  - change (S (length (successes l)) ≤ S (length l))%nat. lia.
  - change (length (successes l) ≤ S (length l))%nat. lia.
Qed.

Lemma successes_all_failed (l : list (option string)) :
  Forall (λ o, o = None) l → successes l = [].
Proof. induction 1 as [|o l -> _ IH]; [done | exact IH]. Qed.

(** The result of a source that succeeded sits at its [resultIndex]. *)
Lemma resultIndex_lookup (l : list (option string)) (i : nat) (u : string) :
  l !! i = Some (Some u) → successes l !! resultIndex l i = Some u.
Proof.
  intros Hi. unfold resultIndex.
  pose proof (take_drop_middle l i (Some u) Hi) as Hl.
  set (before := take i l) in *.
  rewrite <- Hl, successes_app.
  rewrite lookup_app_r by lia.
  by rewrite Nat.sub_diag.
Qed.

(** Later sources that succeed sit strictly later. *)
Lemma resultIndex_lt (l : list (option string)) (i j : nat) (u : string) :
  (i < j)%nat → l !! i = Some (Some u) →
  (resultIndex l i < resultIndex l j)%nat.
Proof.
  intros Hij Hi. unfold resultIndex.
  pose proof (take_drop_middle l i (Some u) Hi) as Hl.
  assert (Hlen : length (take i l) = i).
  { apply length_take_le. apply lookup_lt_Some in Hi. lia. }
  set (before := take i l) in *.
  assert (Hsplit : take j l = (before ++ Some u :: take (j - S i) (drop (S i) l))%list).
  { trans (take j (before ++ Some u :: drop (S i) l)); [by rewrite Hl |].
    rewrite take_app_ge by lia. rewrite Hlen.
    replace (j - i)%nat with (S (j - S i)) by lia. done. }
  rewrite Hsplit, successes_app, length_app.
  change (successes (Some u :: take (j - S i) (drop (S i) l)))
    with (u :: successes (take (j - S i) (drop (S i) l))).
  simpl. lia.
Qed.

End OrderedSuccesses.

Section Batch.
Context {Env : Type} {platform : Platform Env}.

Lemma run_processImage i image shopUrl accessToken imageUrls (w : World Env) :
  processImage i image shopUrl accessToken imageUrls w =
  let '(r, w') := attemptImage i image shopUrl accessToken w in
  (Returned (imageUrls ++ successes [contribution r])%list, w').
Proof.
  unfold processImage, try_catch. rewrite run_bind.
  destruct (attemptImage i image shopUrl accessToken w) as [[u|e] w']; simpl.
  - destruct (UploadResult.success u); simpl; [done | by rewrite app_nil_r].
  - by rewrite app_nil_r.
Qed.

(** The loop returns what it was given followed by the successes of its
    sources, in input order, and it never throws. *)
Lemma run_uploadLoop images : ∀ i shopUrl accessToken imageUrls (w : World Env),
  uploadLoop i images shopUrl accessToken imageUrls w =
  (Returned (imageUrls ++ successes (fst (runImages i images shopUrl accessToken w)))%list,
   snd (runImages i images shopUrl accessToken w)).
Proof.
  induction images as [|image rest IH]; intros i shopUrl accessToken imageUrls w.
  - simpl. by rewrite app_nil_r.
  - simpl. rewrite run_bind, run_processImage.
    destruct (attemptImage i image shopUrl accessToken w) as [r w'].
    rewrite IH.
    destruct (runImages (S i) rest shopUrl accessToken w') as [outcomes w''].
    simpl. f_equal. f_equal.
    rewrite <- app_assoc. f_equal.
    by destruct (contribution r).
Qed.

Lemma run_uploadImages images shopUrl accessToken (w : World Env) :
  uploadImages images shopUrl accessToken w =
  (Returned (successes (imageOutcomes images shopUrl accessToken w)),
   snd (runImages 0 images shopUrl accessToken w)).
Proof.
  unfold uploadImages, imageOutcomes.
  destruct images as [|image rest]; [done |].
  change (0 <? length (image :: rest))%nat with true. cbv iota.
  by rewrite run_uploadLoop.
Qed.

Lemma runImages_length images : ∀ i shopUrl accessToken (w : World Env),
  length (fst (runImages i images shopUrl accessToken w)) = length images.
Proof.
  induction images as [|image rest IH]; intros i shopUrl accessToken w; [done |].
  simpl. destruct (attemptImage i image shopUrl accessToken w) as [r w'].
  specialize (IH (S i) shopUrl accessToken w').
  destruct (runImages (S i) rest shopUrl accessToken w') as [outcomes w''].
  simpl in *. by rewrite IH.
Qed.

Lemma publish_unfold (body : Body.t) :
  publish body =
  uploadImages (Body.images body) (Body.shopUrl body) (Body.accessToken body)
    ≫= publishWith body.
Proof. reflexivity. Qed.

End Batch.

Section BatchProperties.
Context {Env : Type} {platform : Platform Env}.

(** C2.  The image batch returns at most one URL per source, and the
    results keep the order of their sources: the returned list is the
    list of successes of the per-source attempts in input order, so the
    result of a source [i] that succeeded sits at [resultIndex i], and
    for successful sources [i] before [j] that position is strictly
    before the position of [j]'s result. *)
Theorem batch_bounded_and_ordered
    (images : list JsValue) (shopUrl accessToken : string) (w : World Env) :
  let outcomes := imageOutcomes images shopUrl accessToken w in
  ∃ w',
    uploadImages images shopUrl accessToken w = (Returned (successes outcomes), w') ∧
    length outcomes = length images ∧
    (length (successes outcomes) ≤ length images)%nat ∧
    ∀ i j ui uj,
      (i < j)%nat →
      outcomes !! i = Some (Some ui) →
      outcomes !! j = Some (Some uj) →
      successes outcomes !! resultIndex outcomes i = Some ui ∧
      successes outcomes !! resultIndex outcomes j = Some uj ∧
      (resultIndex outcomes i < resultIndex outcomes j)%nat.
Proof.
  intros outcomes.
  assert (Hlen : length outcomes = length images) by apply runImages_length.
  exists (snd (runImages 0 images shopUrl accessToken w)).
  split; [apply run_uploadImages |].
  split; [exact Hlen |].
  split; [rewrite <- Hlen; apply successes_length |].
  intros i j ui uj Hij Hi Hj.
  split; [by apply resultIndex_lookup |].
  split; [by apply resultIndex_lookup |].
  by apply resultIndex_lt with ui.
Qed.

Lemma productPayload_returns (productData : ProductData.t) (imageUrls : list string)
    (d : string) (w : World Env) :
  ProductData.description productData = JStr d →
  priced (ProductData.price productData) →
  ∃ product,
    productPayload productData imageUrls w = (Returned product, w) ∧
    Product.body_html product = JStr d ∧
    Product.metafields_global_description_tag product = substring0 160 d ∧
    Product.images product =
      map Product.make_image (map (replace_first "http://" "https://") imageUrls) ∧
    (∃ priceText,
       Product.variants product =
         [ {| Product.price := priceText;
              Product.inventory_quantity :=
                or_else (ProductData.inventory productData) (JNum one);
              Product.inventory_management := "shopify";
              Product.inventory_policy := "deny" |} ]).
Proof.
  intros Hd Hpriced. unfold productPayload. rewrite Hd.
  assert (Hprice : ∃ priceText, toString (ProductData.price productData) = inl priceText).
  { destruct (ProductData.price productData); simpl in *; try done; eauto. }
  destruct Hprice as [priceText Hprice]. rewrite Hprice.
  eexists. split; [reflexivity |].
  simpl. repeat split. eauto.
Qed.

(** Whatever the platform answers, [createShopifyProduct] sends exactly
    the product request once the payload is built. *)
Lemma createShopifyProduct_sends productData imageUrls shop accessToken product
    (w : World Env) :
  productPayload productData imageUrls w = (Returned product, w) →
  sent (snd (createShopifyProduct productData imageUrls shop accessToken w)) =
  (sent w ++ [productRequest shop accessToken product])%list.
Proof.
  intros Hp. unfold createShopifyProduct, try_catch.
  rewrite run_bind, Hp, run_bind, run_post. cbv zeta.
  fold (productRequest shop accessToken product).
  destruct (axios_post _ (env w)) as [[resp|err] e].
  - destruct (truthy _); [|done].
    rewrite !run_bind.
    destruct (template (get (get (data resp) "product") "handle")) as [handle|e1];
      simpl; [| by destruct (status_is e1 401), (status_is e1 422)].
    destruct (template (get (get (data resp) "product") "id")) as [id|e2];
      simpl; [done | by destruct (status_is e2 401), (status_is e2 422)].
  - simpl. by destruct (status_is err 401), (status_is err 422).
Qed.

Lemma publishWith_sent body imageUrls (w : World Env) :
  sent (snd (publishWith body imageUrls w)) =
  sent (snd (createShopifyProduct (productDataOf body) imageUrls
               (strip_scheme (Body.shopUrl body)) (Body.accessToken body) w)).
Proof.
  unfold publishWith. rewrite run_bind.
  destruct (createShopifyProduct _ _ _ _ w) as [[productResult|e] w1]; [|done].
  unfold storeInSession, get_session, set_session, now.
  rewrite !run_bind. simpl.
  destruct (Date_now (env w1)) as [t1 e1]. simpl.
  rewrite !run_bind. simpl.
  by destruct (Date_now e1) as [t2 e2].
Qed.

(** C10.  A source that is a string with none of the prefixes
    [data:image/], [http://], [https://], or that is neither a string nor
    a buffer, is dropped: its attempt throws before anything is sent, the
    loop turn leaves [imageUrls] and the world as they were, and the loop
    carries on with the remaining sources. *)
Theorem unsupported_source_dropped
    (i : nat) (image : JsValue) (rest : list JsValue)
    (shopUrl accessToken : string) (imageUrls : list string) (w : World Env) :
  unsupported image →
  (∃ e, attemptImage i image shopUrl accessToken w = (Thrown e, w)) ∧
  processImage i image shopUrl accessToken imageUrls w = (Returned imageUrls, w) ∧
  uploadLoop i (image :: rest) shopUrl accessToken imageUrls w =
  uploadLoop (S i) rest shopUrl accessToken imageUrls w.
Proof.
  intros Hbad.
  assert (Hattempt : ∃ e, attemptImage i image shopUrl accessToken w = (Thrown e, w)).
  { unfold attemptImage. rewrite run_bind.
    destruct image as [| | | |s| | |]; simpl in *; try done; eauto.
    destruct Hbad as (-> & -> & ->). simpl. eauto. }
  destruct Hattempt as [e He].
  assert (Hturn : processImage i image shopUrl accessToken imageUrls w
                  = (Returned imageUrls, w)).
  { rewrite run_processImage, He. simpl. by rewrite app_nil_r. }
  split; [eauto |]. split; [exact Hturn |].
  simpl. by rewrite run_bind, Hturn.
Qed.

End BatchProperties.

(* ===================================================================== *)
(** ** The session and the requests, framed *)
(* ===================================================================== *)

Section Framing.
Context {Env : Type} {platform : Platform Env}.

#[local] Instance same_session_preorder : PreOrder (@same_session Env).
Proof.
  split.
  - by intros w.
  - intros w1 w2 w3 H12 H23. unfold same_session in *. congruence.
Qed.

#[local] Instance sends_only_preorder (P : Request → Prop) :
  PreOrder (@sends_only Env P).
Proof.
  split.
  - intros w. exists []. by rewrite app_nil_r.
  - intros w1 w2 w3 (n12 & H12 & P12) (n23 & H23 & P23).
    exists (n12 ++ n23)%list. split.
    + by rewrite H23, H12, app_assoc.
    + by apply Forall_app.
Qed.

Lemma uploadImages_same_session images shopUrl accessToken :
  respects (@same_session Env) (uploadImages images shopUrl accessToken).
Proof.
  apply respects_uploadImages with (allowed := λ _, True); try done.
  apply _.
Qed.

Lemma createShopifyProduct_same_session productData imageUrls shop accessToken :
  respects (@same_session Env)
    (createShopifyProduct productData imageUrls shop accessToken).
Proof.
  apply respects_createShopifyProduct with (allowed := λ _, True); try done.
  apply _.
Qed.

Lemma sends_only_env (P : Request → Prop) (w : World Env) (e : Env) :
  sends_only P w (mkWorld e (sent w) (session w)).
Proof. exists []. simpl. by rewrite app_nil_r. Qed.

Lemma sends_only_sent (P : Request → Prop) (w : World Env) (r : Request) :
  P r → sends_only P w (mkWorld (env w) (sent w ++ [r])%list (session w)).
Proof. intros Hr. exists [r]. split; [done | by constructor]. Qed.

Lemma uploadImages_sends_only (P : Request → Prop) images shopUrl accessToken :
  batch_allowed P (strip_scheme shopUrl) accessToken →
  respects (@sends_only Env P) (uploadImages images shopUrl accessToken).
Proof.
  intros HP. apply respects_uploadImages with (allowed := P); try done.
  - apply _.
  - apply sends_only_env.
  - apply sends_only_sent.
Qed.

Lemma createShopifyProduct_sends_only (P : Request → Prop)
    productData imageUrls shop accessToken :
  (∀ product, P (productRequest shop accessToken product)) →
  respects (@sends_only Env P)
    (createShopifyProduct productData imageUrls shop accessToken).
Proof.
  intros HP. apply respects_createShopifyProduct with (allowed := P); try done.
  - apply _.
  - apply sends_only_env.
  - apply sends_only_sent.
Qed.

(** After the product is created nothing can throw any more. *)
Lemma publishWith_outcome body imageUrls (w : World Env) :
  match createShopifyProduct (productDataOf body) imageUrls
          (strip_scheme (Body.shopUrl body)) (Body.accessToken body) w with
  | (Returned productResult, _) =>
      ∃ stamp w',
        publishWith body imageUrls w =
        (Returned (ReplyOk (ProductResult.product productResult)
                           (ProductResult.productUrl productResult)
                           (ProductResult.adminUrl productResult)
                           imageUrls (length imageUrls) stamp), w')
  | (Thrown e, w') => publishWith body imageUrls w = (Thrown e, w')
  end.
Proof.
  unfold publishWith. rewrite run_bind.
  destruct (createShopifyProduct _ _ _ _ w) as [[productResult|e] w1]; [|done].
  unfold storeInSession, get_session, set_session, now.
  rewrite !run_bind. simpl.
  destruct (Date_now (env w1)) as [t1 e1]. simpl.
  rewrite !run_bind. simpl.
  destruct (Date_now e1) as [t2 e2]. eauto.
Qed.

(** A run of the route that ends in an error leaves the session alone. *)
Lemma failure_keeps_session (body : Body.t) (w : World Env) :
  is_failure (fst (uploadProduct body w)) →
  session (snd (uploadProduct body w)) = session w.
Proof.
  unfold uploadProduct. rewrite publish_unfold, run_bind.
  pose proof (uploadImages_same_session (Body.images body) (Body.shopUrl body)
                (Body.accessToken body) w) as Hbatch.
  destruct (uploadImages _ _ _ w) as [[imageUrls|e] w1]; simpl in Hbatch.
  - pose proof (publishWith_outcome body imageUrls w1) as Hout.
    pose proof (createShopifyProduct_same_session (productDataOf body) imageUrls
                  (strip_scheme (Body.shopUrl body)) (Body.accessToken body) w1) as Hcreate.
    destruct (createShopifyProduct _ _ _ _ w1) as [[productResult|e] w2];
      simpl in Hcreate.
    + by destruct Hout as (stamp & w' & ->).
    + rewrite Hout. destruct (Date_now (env w2)) as [stamp e']. simpl.
      intros _. unfold same_session in *. congruence.
  - destruct (Date_now (env w1)) as [stamp e']. simpl. intros _. done.
Qed.

End Framing.

(* ===================================================================== *)
(** ** The two calls to the shop *)
(* ===================================================================== *)

Section Calls.
Context {Env : Type} {platform : Platform Env}.

(** [uploadImageToShopify] sends exactly the upload request, whatever
    comes back. *)
Lemma uploadImageToShopify_sends imageData shop accessToken (w : World Env) :
  sent (snd (uploadImageToShopify imageData shop accessToken w)) =
  (sent w ++ [uploadRequest shop accessToken imageData])%list.
Proof.
  unfold uploadImageToShopify, try_catch.
  rewrite run_bind, run_post. cbv zeta.
  fold (uploadRequest shop accessToken imageData).
  destruct (axios_post _ (env w)) as [[resp|err] e].
  - destruct (truthy _); [|done].
    rewrite run_bind.
    destruct (replace_scheme (get (get (data resp) "upload") "public_url"))
      as [httpsUrl|e1]; simpl;
      [done | by destruct (status_is e1 401), (status_is e1 422)].
  - simpl. by destruct (status_is err 401), (status_is err 422).
Qed.

Lemma substring0_drop_chars (n : nat) (s : string) :
  substring0 n s +:+ drop_chars n s = s.
Proof.
  unfold substring0. revert s.
  induction n as [|n IH]; intros [|c s]; try reflexivity.
  change (String c (String.substring 0 n s +:+ drop_chars n s) = String c s).
  by rewrite IH.
Qed.

(** C6, as the code has it.  When the asset endpoint resolves (a 2xx
    status) with a body that has no [upload], and when the product
    endpoint resolves with a body that has no [product], the call throws:
    the error is the one of the final [else] of the [catch], whose message
    is the generic prefix followed by [Invalid response from Shopify ...
    API]; it is not one of the validation errors of the 422 branches. *)
Theorem malformed_success_is_rejected :
  (∀ imageData shop accessToken (w : World Env) resp e,
     axios_post (uploadRequest shop accessToken imageData) (env w) = (inl resp, e) →
     truthy (and_then (data resp) (get (data resp) "upload")) = false →
     uploadImageToShopify imageData shop accessToken w =
     (Thrown (Error "Shopify upload failed: Invalid response from Shopify upload API"),
      mkWorld e (sent w ++ [uploadRequest shop accessToken imageData])%list (session w)))
  ∧
  (∀ productData imageUrls shop accessToken (w : World Env) product resp e,
     productPayload productData imageUrls w = (Returned product, w) →
     axios_post (productRequest shop accessToken product) (env w) = (inl resp, e) →
     truthy (and_then (data resp) (get (data resp) "product")) = false →
     createShopifyProduct productData imageUrls shop accessToken w =
     (Thrown (Error "Shopify product creation failed: Invalid response from Shopify product creation API"),
      mkWorld e (sent w ++ [productRequest shop accessToken product])%list (session w)))
  ∧
  is_validation_error
    (Error "Shopify upload failed: Invalid response from Shopify upload API") = false
  ∧
  is_validation_error
    (Error "Shopify product creation failed: Invalid response from Shopify product creation API") = false.
Proof.
  split; [| split; [| by split]].
  - intros imageData shop accessToken w resp e Hpost Hshape.
    unfold uploadImageToShopify, try_catch.
    rewrite run_bind, run_post. cbv zeta.
    fold (uploadRequest shop accessToken imageData).
    by rewrite Hpost, Hshape.
  - intros productData imageUrls shop accessToken w product resp e Hp Hpost Hshape.
    unfold createShopifyProduct, try_catch.
    rewrite run_bind, Hp, run_bind, run_post. cbv zeta.
    fold (productRequest shop accessToken product).
    by rewrite Hpost, Hshape.
Qed.

(** C7.  For a description of more than 160 characters (and a price that
    is a number or a string), the product request is sent, its meta description is the
    first 160 characters of the description, of length exactly 160, and
    its [body_html] is the whole description. *)
Theorem meta_description_truncated
    (productData : ProductData.t) (imageUrls : list string)
    (shop accessToken d : string) (w : World Env) :
  ProductData.description productData = JStr d →
  (160 < String.length d)%nat →
  priced (ProductData.price productData) →
  ∃ product,
    sent (snd (createShopifyProduct productData imageUrls shop accessToken w)) =
      (sent w ++ [productRequest shop accessToken product])%list ∧
    Product.metafields_global_description_tag product = substring0 160 d ∧
    d = Product.metafields_global_description_tag product +:+ drop_chars 160 d ∧
    String.length (Product.metafields_global_description_tag product) = 160%nat ∧
    Product.body_html product = JStr d.
Proof.
  intros Hd Hlen Hprice.
  destruct (productPayload_returns productData imageUrls d w Hd Hprice)
    as (product & Hp & Hbody & Hmeta & _).
  exists product.
  split; [by apply createShopifyProduct_sends |].
  split; [exact Hmeta |].
  rewrite Hmeta.
  split; [by rewrite substring0_drop_chars |].
  split; [apply substring0_length; lia | exact Hbody].
Qed.

(** C5.  When the product endpoint answers 422, [createShopifyProduct]
    throws the validation error whose message carries
    [JSON.stringify] of the [errors] of the response body, the route
    answers with that message, and the session is what it was; and any
    run of the route that ends in an error leaves the session as it
    was. *)
Theorem product_validation_failure (body : Body.t) (w : World Env) :
  let shop := strip_scheme (Body.shopUrl body) in
  let accessToken := Body.accessToken body in
  let imageUrls :=
    successes (imageOutcomes (Body.images body) (Body.shopUrl body) accessToken w) in
  let w1 := snd (runImages 0 (Body.images body) (Body.shopUrl body) accessToken w) in
  (∀ product err e2 d,
     productPayload (productDataOf body) imageUrls w1 = (Returned product, w1) →
     axios_post (productRequest shop accessToken product) (env w1) = (inr err, e2) →
     response err = Some {| status := 422; data := d |} →
     let report :=
       "Product validation failed: " +:+ JSON_stringify (get_opt d "errors") in
     is_validation_error (Error report) = true ∧
     (∃ w2, createShopifyProduct (productDataOf body) imageUrls shop accessToken w1
            = (Thrown (Error report), w2)) ∧
     ∃ stamp w3,
       uploadProduct body w = (ReplyError 500 "Shopify Upload Failed" report stamp, w3) ∧
       session w3 = session w)
  ∧
  (is_failure (fst (uploadProduct body w)) →
   session (snd (uploadProduct body w)) = session w).
Proof.
  intros shop accessToken imageUrls w1.
  split; [| apply failure_keeps_session].
  intros product err e2 d Hp Hpost Hresp report.
  assert (Hcreate :
    createShopifyProduct (productDataOf body) imageUrls shop accessToken w1
    = (Thrown (Error report),
       mkWorld e2 (sent w1 ++ [productRequest shop accessToken product])%list (session w1))).
  { unfold createShopifyProduct, try_catch.
    rewrite run_bind, Hp, run_bind, run_post. cbv zeta.
    fold (productRequest shop accessToken product).
    rewrite Hpost. unfold status_is, response_errors. by rewrite Hresp. }
  split; [apply (prefix_append "Product validation failed: ") |].
  split; [eauto |].
  assert (Hreply : ∃ stamp w3,
    uploadProduct body w = (ReplyError 500 "Shopify Upload Failed" report stamp, w3)).
  { unfold uploadProduct. rewrite publish_unfold.
    rewrite (run_bind_returned _ _ _ _ _
               (run_uploadImages (Body.images body) (Body.shopUrl body) accessToken w)).
    fold imageUrls w1.
    pose proof (publishWith_outcome body imageUrls w1) as Hout.
    fold shop accessToken in Hout. rewrite Hcreate in Hout. rewrite Hout.
    simpl. destruct (Date_now e2) as [stamp e3]. eauto. }
  destruct Hreply as (stamp & w3 & Hreply).
  exists stamp, w3. split; [exact Hreply |].
  pose proof (failure_keeps_session body w) as Hkeep.
  rewrite Hreply in Hkeep. by apply Hkeep.
Qed.

End Calls.

(* ===================================================================== *)
(** ** The scheme of the image URLs *)
(* ===================================================================== *)

Section Schemes.
Context {Env : Type} {platform : Platform Env}.

(** What the upload returns as [publicUrl] for an upstream [public_url]
    that is a string: the first [http://] in it rewritten, nothing else. *)
Lemma uploadImageToShopify_publicUrl imageData shop accessToken (w : World Env)
    resp e (public_url : string) :
  axios_post (uploadRequest shop accessToken imageData) (env w) = (inl resp, e) →
  truthy (and_then (data resp) (get (data resp) "upload")) = true →
  get (get (data resp) "upload") "public_url" = JStr public_url →
  ∃ r w',
    uploadImageToShopify imageData shop accessToken w = (Returned r, w') ∧
    UploadResult.publicUrl r = replace_first "http://" "https://" public_url.
Proof.
  intros Hpost Hshape Hurl.
  unfold uploadImageToShopify, try_catch.
  rewrite run_bind, run_post. cbv zeta.
  fold (uploadRequest shop accessToken imageData).
  rewrite Hpost, Hshape, run_bind, Hurl. simpl. eauto.
Qed.

(** The product payload lists one image per URL it was given, in order. *)
Lemma productPayload_images productData imageUrls product (w w' : World Env) :
  productPayload productData imageUrls w = (Returned product, w') →
  map Product.src (Product.images product) =
    map (replace_first "http://" "https://") imageUrls ∧
  length (Product.images product) = length imageUrls.
Proof.
  unfold productPayload. rewrite run_bind.
  destruct (toString _) as [priceText|e]; [|done].
  simpl. rewrite run_bind.
  destruct (substring_0_160 _) as [meta|e]; [|done].
  intros [= <- _]. simpl. split.
  - rewrite map_map. by rewrite map_id.
  - by rewrite !length_map.
Qed.

End Schemes.

(** C1.  The upload returns the upstream URL with its first [http://]
    replaced and nothing else: an upstream [public_url] whose scheme is
    written [HTTP://], or is [ftp://], comes back as it was, so the URL
    handed to the rest of the pipeline is not an [https] one. *)
Theorem upload_keeps_upstream_scheme :
  let upload public_url :=
    fst (uploadImageToShopify (platform := Mock.shop public_url)
           Mock.pixel "craft.myshopify.com" "shpat_1" Mock.start) in
  let returned public_url :=
    Returned {| UploadResult.success := true;
                UploadResult.uploadId := JNum one;
                UploadResult.publicUrl := public_url;
                UploadResult.filename := JStr "product_image.jpg" |} in
  upload "HTTP://cdn.shopify.com/s/files/pot.jpg"
    = returned "HTTP://cdn.shopify.com/s/files/pot.jpg" ∧
  is_https "HTTP://cdn.shopify.com/s/files/pot.jpg" = false ∧
  upload "ftp://cdn.shopify.com/s/files/pot.jpg"
    = returned "ftp://cdn.shopify.com/s/files/pot.jpg" ∧
  is_https "ftp://cdn.shopify.com/s/files/pot.jpg" = false.
Proof. by vm_compute. Qed.

(** C6, as the specification words it, fails: against a shop that
    answers 200 with an empty body, the error thrown by the upload is not
    a validation error. *)
Lemma malformed_success_is_not_validation_error :
  ¬ ∃ e w',
      uploadImageToShopify (platform := Mock.hollow_shop)
        Mock.pixel "craft.myshopify.com" "shpat_1" Mock.start = (Thrown e, w') ∧
      is_validation_error e = true.
Proof.
  intros (e & w' & Hrun & Hvalidation).
  vm_compute in Hrun. injection Hrun as <- _.
  vm_compute in Hvalidation. discriminate.
Qed.

(* ===================================================================== *)
(** ** The theorems at work on concrete requests *)
(* ===================================================================== *)

(** Three sources, the second of which cannot be downloaded: the batch
    returns the URLs of the first and the third, in that order. *)
Lemma batch_bounded_and_ordered_witness :
  let images := [JStr "data:image/png;base64,AAAA";
                 JStr "https://unreachable.example/pot.png";
                 JBuffer []] in
  let first := "https://cdn.shopify.com/s/files/product_image_1_1700000000000.jpg" in
  let third := "https://cdn.shopify.com/s/files/product_image_3_1700000000001.jpg" in
  let outcomes :=
    imageOutcomes (platform := Mock.cdn) images "craft.myshopify.com" "shpat_1"
      Mock.start in
  outcomes = [Some first; None; Some third] ∧
  successes outcomes !! 0%nat = Some first ∧
  successes outcomes !! 1%nat = Some third ∧
  (length (successes outcomes) ≤ 3)%nat.
Proof.
  intros images first third outcomes.
  assert (Houtcomes : outcomes = [Some first; None; Some third]) by (by vm_compute).
  destruct (batch_bounded_and_ordered (platform := Mock.cdn)
              images "craft.myshopify.com" "shpat_1" Mock.start)
    as (w' & _ & _ & Hbound & Horder).
  fold outcomes in Hbound, Horder.
  destruct (Horder 0%nat 2%nat first third) as (Hfirst & Hthird & _).
  - lia.
  - by rewrite Houtcomes.
  - by rewrite Houtcomes.
  - split; [exact Houtcomes |].
    split; [| split; [| exact Hbound]].
    + replace 0%nat with (resultIndex outcomes 0) at 1; [exact Hfirst |].
      by rewrite Houtcomes.
    + replace 1%nat with (resultIndex outcomes 2) at 1; [exact Hthird |].
      by rewrite Houtcomes.
Defined.

(** The product endpoint answers 422: the route reports the validation
    failure and the session stays empty. *)
Lemma product_validation_failure_witness :
  let body := Mock.listing "craft.myshopify.com" [] "A clay pot" in
  ∃ stamp w3,
    uploadProduct (platform := Mock.strict_shop) body Mock.start =
    (ReplyError 500 "Shopify Upload Failed" "Product validation failed: <json>" stamp, w3) ∧
    session w3 = session Mock.start.
Proof.
  intros body.
  destruct (product_validation_failure (platform := Mock.strict_shop) body Mock.start)
    as [H422 _].
  destruct (productPayload_returns (platform := Mock.strict_shop)
              (productDataOf body) [] "A clay pot" Mock.start eq_refl)
    as (product & Hpayload & _).
  - exact I.
  - destruct (H422 product
                (Mock.rejected 422
                   (JObj {[ "errors" := JObj {[ "title" := JArr [JStr "can't be blank"] ]} ]}))
                1700000000000%N
                (JObj {[ "errors" := JObj {[ "title" := JArr [JStr "can't be blank"] ]} ]}))
      as (_ & _ & Hreply).
    + exact Hpayload.
    + reflexivity.
    + reflexivity.
    + exact Hreply.
Defined.

(** A 200 answer with the body [{}] makes both calls throw. *)
Lemma malformed_success_is_rejected_witness :
  fst (uploadImageToShopify (platform := Mock.hollow_shop)
         Mock.pixel "craft.myshopify.com" "shpat_1" Mock.start)
  = Thrown (Error "Shopify upload failed: Invalid response from Shopify upload API") ∧
  fst (createShopifyProduct (platform := Mock.hollow_shop)
         (productDataOf (Mock.listing "craft.myshopify.com" [] "A clay pot")) []
         "craft.myshopify.com" "shpat_1" Mock.start)
  = Thrown (Error "Shopify product creation failed: Invalid response from Shopify product creation API").
Proof.
  destruct (malformed_success_is_rejected (platform := Mock.hollow_shop))
    as (Hupload & Hproduct & _).
  split.
  - rewrite (Hupload Mock.pixel "craft.myshopify.com" "shpat_1" Mock.start
               {| status := 200; data := JObj ∅ |} 1700000000000%N);
      reflexivity.
  - destruct (productPayload_returns (platform := Mock.hollow_shop)
                (productDataOf (Mock.listing "craft.myshopify.com" [] "A clay pot"))
                [] "A clay pot" Mock.start eq_refl)
      as (product & Hpayload & _).
    + exact I.
    + rewrite (Hproduct _ [] "craft.myshopify.com" "shpat_1" Mock.start product
                 {| status := 200; data := JObj ∅ |} 1700000000000%N);
        [reflexivity | exact Hpayload | reflexivity | reflexivity].
Defined.

(** A description of 190 characters. *)
Lemma meta_description_truncated_witness :
  let productData :=
    productDataOf (Mock.listing "craft.myshopify.com" [] Mock.long_description) in
  ProductData.description productData = JStr Mock.long_description ∧
  (160 < String.length Mock.long_description)%nat ∧
  priced (ProductData.price productData) ∧
  ∃ product,
    sent (snd (createShopifyProduct (platform := Mock.cdn) productData []
                 "craft.myshopify.com" "shpat_1" Mock.start)) =
      [productRequest "craft.myshopify.com" "shpat_1" product] ∧
    String.length (Product.metafields_global_description_tag product) = 160%nat ∧
    Product.body_html product = JStr Mock.long_description.
Proof.
  intros productData.
  assert (Hlong : (160 < String.length Mock.long_description)%nat).
  { apply Nat.ltb_lt. vm_compute. reflexivity. }
  assert (Hprice : priced (ProductData.price productData)) by exact I.
  split; [reflexivity |]. split; [exact Hlong |]. split; [exact Hprice |].
  destruct (meta_description_truncated (platform := Mock.cdn) productData []
              "craft.myshopify.com" "shpat_1" Mock.long_description Mock.start
              eq_refl Hlong Hprice)
    as (product & Hsent & _ & _ & Hlength & Hbody).
  exists product. split; [exact Hsent |]. split; [exact Hlength | exact Hbody].
Defined.

(** A [file://] source in front of a good one. *)
Lemma unsupported_source_dropped_witness :
  unsupported (JStr "file:///tmp/pot.png") ∧
  processImage (platform := Mock.cdn) 0 (JStr "file:///tmp/pot.png")
    "craft.myshopify.com" "shpat_1" [] Mock.start = (Returned [], Mock.start) ∧
  uploadLoop (platform := Mock.cdn) 0
    [JStr "file:///tmp/pot.png"; JStr "data:image/png;base64,AAAA"]
    "craft.myshopify.com" "shpat_1" [] Mock.start =
  uploadLoop (platform := Mock.cdn) 1 [JStr "data:image/png;base64,AAAA"]
    "craft.myshopify.com" "shpat_1" [] Mock.start.
Proof.
  assert (Hbad : unsupported (JStr "file:///tmp/pot.png")) by (by vm_compute).
  split; [exact Hbad |].
  destruct (unsupported_source_dropped (platform := Mock.cdn) 0
              (JStr "file:///tmp/pot.png") [JStr "data:image/png;base64,AAAA"]
              "craft.myshopify.com" "shpat_1" [] Mock.start Hbad)
    as (_ & Hturn & Hloop).
  split; [exact Hturn | exact Hloop].
Defined.

(* ===================================================================== *)
(** ** Re-encoding and file names *)
(* ===================================================================== *)

Lemma append_assoc (a b c : string) : a +:+ b +:+ c = (a +:+ b) +:+ c.
Proof.
  induction a as [|x a IH]; [done |].
  change (String x (a +:+ b +:+ c) = String x ((a +:+ b) +:+ c)). by rewrite IH.
Qed.

Lemma append_empty (a : string) : a +:+ EmptyString = a.
Proof.
  induction a as [|x a IH]; [done |].
  change (String x (a +:+ EmptyString) = String x a). by rewrite IH.
Qed.

Lemma prefix_split (p s : string) :
  String.prefix p s = true → s = p +:+ drop_chars (String.length p) s.
Proof.
  revert s. induction p as [|c p IH]; intros s Hp; [by destruct s |].
  destruct s as [|c' s]; simpl in Hp; [done |].
  destruct (ascii_dec c c') as [<-|]; [| done].
  change (String c s = String c (p +:+ drop_chars (String.length p) s)).
  f_equal. by apply IH.
Qed.

Lemma no_slash_or_dot_dotted (a b : string) :
  no_slash_or_dot (a +:+ String "." b) = false.
Proof.
  induction a as [|c a IH]; [done |].
  change (no_slash_or_dot (String c (a +:+ String "." b)) = false).
  simpl. rewrite IH. by rewrite andb_false_r.
Qed.

Lemma replace_extension_dotted (stem ext : string) :
  ext ≠ EmptyString → no_slash_or_dot ext = true →
  replace_extension (stem +:+ String "." ext) = stem +:+ ".jpg".
Proof.
  intros Hne Hext. induction stem as [|c stem IH].
  - change (replace_extension (String "." ext) = ".jpg"). simpl.
    rewrite Hext. by destruct ext.
  - change (replace_extension (String c (stem +:+ String "." ext))
            = String c (stem +:+ ".jpg")).
    simpl. rewrite no_slash_or_dot_dotted, andb_false_r. by rewrite IH.
Qed.

Lemma replace_extension_plain (name : string) :
  no_slash_or_dot name = true → replace_extension name = name.
Proof.
  induction name as [|c name IH]; [done |]. simpl.
  intros [[Hslash Hdot]%andb_true_iff Hrest]%andb_true_iff.
  apply negb_true_iff in Hdot. rewrite Hdot. simpl. by rewrite IH.
Qed.

Section Reencoding.
Context {Env : Type} {platform : Platform Env}.

(** X1.  When the image library accepts the buffer, the processed image
    carries the re-encoded bytes and the type [image/jpeg], and its file
    name is the given one with the extension replaced by [.jpg],
    whatever the extension and the stem were; a name without a dot (and
    without a slash) is kept as it is, without a [.jpg]. *)
Theorem processed_image_is_jpeg
    (imageBuffer processed : Buffer) (w : World Env) (e : Env) :
  sharp_jpeg imageBuffer (env w) = (inl processed, e) →
  (∀ stem ext, ext ≠ EmptyString → no_slash_or_dot ext = true →
     processImageForShopify imageBuffer (stem +:+ String "." ext) w =
     (Returned {| ImageData.buffer := processed;
                  ImageData.filename := stem +:+ ".jpg";
                  ImageData.mimetype := "image/jpeg" |},
      mkWorld e (sent w) (session w))) ∧
  (∀ name, no_slash_or_dot name = true →
     processImageForShopify imageBuffer name w =
     (Returned {| ImageData.buffer := processed;
                  ImageData.filename := name;
                  ImageData.mimetype := "image/jpeg" |},
      mkWorld e (sent w) (session w))).
Proof.
  intros Hsharp.
  assert (Hrun : ∀ name, processImageForShopify imageBuffer name w =
    (Returned {| ImageData.buffer := processed;
                 ImageData.filename := replace_extension name;
                 ImageData.mimetype := "image/jpeg" |},
     mkWorld e (sent w) (session w))).
  { intros name. unfold processImageForShopify, try_catch, call.
    rewrite run_bind. by rewrite Hsharp. }
  split.
  - intros stem ext Hne Hext. by rewrite Hrun, replace_extension_dotted.
  - intros name Hname. by rewrite Hrun, replace_extension_plain.
Qed.

(** X2.  When the image library rejects the bytes of a source, the
    attempt on that source throws [Image processing failed: ] followed by
    the library's message, and nothing is uploaded: the requests sent are
    those of reading the source. *)
Theorem unreadable_image_not_uploaded
    (i : nat) (image : JsValue) (shopUrl accessToken : string)
    (w w1 : World Env) (imageBuffer : Buffer) (stamp : N) (e1 e2 : Env)
    (err : JsError) :
  readImage image w = (Returned imageBuffer, w1) →
  Date_now (env w1) = (stamp, e1) →
  sharp_jpeg imageBuffer e1 = (inr err, e2) →
  attemptImage i image shopUrl accessToken w =
  (Thrown (Error ("Image processing failed: " +:+ message err)),
   mkWorld e2 (sent w1) (session w1)) ∧
  ∀ imageUrls,
    processImage i image shopUrl accessToken imageUrls w =
    (Returned imageUrls, mkWorld e2 (sent w1) (session w1)).
Proof.
  intros Hread Hnow Hsharp.
  assert (Hattempt : attemptImage i image shopUrl accessToken w =
    (Thrown (Error ("Image processing failed: " +:+ message err)),
     mkWorld e2 (sent w1) (session w1))).
  { unfold attemptImage. rewrite run_bind, Hread, run_bind.
    unfold now at 1. rewrite Hnow. rewrite run_bind.
    unfold processImageForShopify, try_catch, call.
    rewrite run_bind. simpl. by rewrite Hsharp. }
  split; [exact Hattempt |].
  intros imageUrls. rewrite run_processImage, Hattempt. simpl.
  by rewrite app_nil_r.
Qed.

(** X21.  An image that is read and re-encoded is uploaded to the shop
    (its URL without the scheme) as [image/jpeg], under the name
    [product_image_<i+1>_<time>.jpg]: numbered from one, stamped with the
    clock, with the re-encoded bytes as attachment; this upload is the
    one request the attempt adds after reading the source. *)
Theorem uploads_are_numbered_jpegs
    (i : nat) (image : JsValue) (shopUrl accessToken : string)
    (w w1 : World Env) (imageBuffer processed : Buffer) (stamp : N) (e1 e2 : Env) :
  readImage image w = (Returned imageBuffer, w1) →
  Date_now (env w1) = (stamp, e1) →
  sharp_jpeg imageBuffer e1 = (inl processed, e2) →
  sent (snd (attemptImage i image shopUrl accessToken w)) =
  (sent w1 ++
   [ uploadRequest (strip_scheme shopUrl) accessToken
       {| ImageData.buffer := processed;
          ImageData.filename :=
            "product_image_" +:+ pretty (i + 1)%nat +:+ "_" +:+ pretty stamp +:+ ".jpg";
          ImageData.mimetype := "image/jpeg" |} ])%list.
Proof.
  intros Hread Hnow Hsharp.
  unfold attemptImage. rewrite run_bind, Hread, run_bind.
  unfold now at 1. rewrite Hnow. rewrite run_bind.
  remember ("product_image_" +:+ pretty (i + 1)%nat +:+ "_" +:+ pretty stamp +:+ ".jpg")
    as name eqn:Hn.
  assert (Hname : replace_extension name = name).
  { rewrite Hn, !(append_assoc _ _ ".jpg").
    by rewrite (replace_extension_dotted _ "jpg"). }
  assert (Hprocess :
    processImageForShopify imageBuffer name (mkWorld e1 (sent w1) (session w1)) =
    (Returned {| ImageData.buffer := processed;
                 ImageData.filename := name;
                 ImageData.mimetype := "image/jpeg" |},
     mkWorld e2 (sent w1) (session w1))).
  { unfold processImageForShopify, try_catch, call.
    rewrite run_bind. simpl. by rewrite Hsharp, Hname. }
  rewrite Hprocess. by rewrite uploadImageToShopify_sends.
Qed.

End Reencoding.

(* ===================================================================== *)
(** ** What the upload reports *)
(* ===================================================================== *)

Section UploadReports.
Context {Env : Type} {platform : Platform Env}.

(** X3.  A rejected upload is reported by status alone: status 401 gives
    [Invalid Shopify access token], status 422 gives [Invalid image data
    or format], and every other rejection, with or without a response,
    gives [Shopify upload failed: ] followed by the message of the
    rejection.  The request has been sent once in each case. *)
Theorem upload_rejection_reported
    (imageData : ImageData.t) (shop accessToken : string)
    (w : World Env) (err : JsError) (e : Env) :
  axios_post (uploadRequest shop accessToken imageData) (env w) = (inr err, e) →
  let after :=
    mkWorld e (sent w ++ [uploadRequest shop accessToken imageData])%list (session w) in
  (status_is err 401 = true →
   uploadImageToShopify imageData shop accessToken w =
   (Thrown (Error "Invalid Shopify access token"), after)) ∧
  (status_is err 422 = true →
   uploadImageToShopify imageData shop accessToken w =
   (Thrown (Error "Invalid image data or format"), after)) ∧
  (status_is err 401 = false → status_is err 422 = false →
   uploadImageToShopify imageData shop accessToken w =
   (Thrown (Error ("Shopify upload failed: " +:+ message err)), after)).
Proof.
  intros Hpost after.
  assert (Hrun : uploadImageToShopify imageData shop accessToken w =
    (Thrown (Error (if status_is err 401 then "Invalid Shopify access token"
                    else if status_is err 422 then "Invalid image data or format"
                    else "Shopify upload failed: " +:+ message err)), after)).
  { unfold uploadImageToShopify, try_catch.
    rewrite run_bind, run_post. cbv zeta.
    fold (uploadRequest shop accessToken imageData). rewrite Hpost.
    by destruct (status_is err 401), (status_is err 422). }
  split; [| split].
  - intros H401. by rewrite Hrun, H401.
  - intros H422. rewrite Hrun, H422.
    destruct (status_is err 401) eqn:H401; [|done].
    unfold status_is in *. destruct (response err) as [r|]; [|done].
    apply Z.eqb_eq in H401, H422. congruence.
  - intros H401 H422. by rewrite Hrun, H401, H422.
Qed.

(** X4.  An answer that has an [upload] but whose [public_url] is not a
    string makes the upload fail with the generic failure, although the
    asset endpoint accepted the image; with a string [public_url] the
    upload returns the id, the key and the rewritten URL of the answer. *)
Theorem upload_needs_string_public_url
    (imageData : ImageData.t) (shop accessToken : string)
    (w : World Env) (resp : Response) (e : Env) :
  axios_post (uploadRequest shop accessToken imageData) (env w) = (inl resp, e) →
  truthy (and_then (data resp) (get (data resp) "upload")) = true →
  let upload := get (data resp) "upload" in
  let after :=
    mkWorld e (sent w ++ [uploadRequest shop accessToken imageData])%list (session w) in
  (not_a_string (get upload "public_url") →
   ∃ reason,
     uploadImageToShopify imageData shop accessToken w =
     (Thrown (Error ("Shopify upload failed: " +:+ reason)), after)) ∧
  (∀ public_url, get upload "public_url" = JStr public_url →
     uploadImageToShopify imageData shop accessToken w =
     (Returned {| UploadResult.success := true;
                  UploadResult.uploadId := get upload "id";
                  UploadResult.publicUrl :=
                    replace_first "http://" "https://" public_url;
                  UploadResult.filename := get upload "key" |}, after)).
Proof.
  intros Hpost Hshape upload after.
  assert (Hrun : uploadImageToShopify imageData shop accessToken w =
    match replace_scheme (get upload "public_url") with
    | inl httpsUrl =>
        (Returned {| UploadResult.success := true;
                     UploadResult.uploadId := get upload "id";
                     UploadResult.publicUrl := httpsUrl;
                     UploadResult.filename := get upload "key" |}, after)
    | inr error =>
        (Thrown (Error ("Shopify upload failed: " +:+ message error)), after)
    end).
  { unfold uploadImageToShopify, try_catch.
    rewrite run_bind, run_post. cbv zeta.
    fold (uploadRequest shop accessToken imageData).
    rewrite Hpost, Hshape, run_bind. fold upload.
    by destruct (get upload "public_url"). }
  split.
  - intros Hnot. rewrite Hrun.
    destruct (get upload "public_url"); simpl in *; try done; eauto.
  - intros public_url Hurl. by rewrite Hrun, Hurl.
Qed.

(** X5.  When the asset endpoint hands out a URL that starts with
    [http://] or with [https://], the URL the upload returns starts with
    [https://], and it still does after the second rewrite that the
    product payload applies. *)
Theorem web_urls_come_back_secure
    (imageData : ImageData.t) (shop accessToken : string)
    (w : World Env) (resp : Response) (e : Env) (public_url : string) :
  axios_post (uploadRequest shop accessToken imageData) (env w) = (inl resp, e) →
  truthy (and_then (data resp) (get (data resp) "upload")) = true →
  get (get (data resp) "upload") "public_url" = JStr public_url →
  startsWith public_url "http://" || startsWith public_url "https://" = true →
  ∃ uploadResult w',
    uploadImageToShopify imageData shop accessToken w = (Returned uploadResult, w') ∧
    is_https (UploadResult.publicUrl uploadResult) = true ∧
    is_https (replace_first "http://" "https://" (UploadResult.publicUrl uploadResult))
    = true.
Proof.
  intros Hpost Hshape Hurl Hweb.
  destruct (uploadImageToShopify_publicUrl imageData shop accessToken w resp e
              public_url Hpost Hshape Hurl) as (uploadResult & w' & Hrun & Hpublic).
  exists uploadResult, w'. split; [exact Hrun |]. rewrite Hpublic.
  assert (Hsecure : ∃ rest,
            replace_first "http://" "https://" public_url = "https://" +:+ rest).
  { apply orb_true_iff in Hweb as [Hhttp | Hhttps].
    - apply prefix_split in Hhttp. rewrite Hhttp.
      eexists. apply replace_first_http.
    - apply prefix_split in Hhttps. rewrite Hhttps.
      exists (replace_first "http://" "https://"
                (drop_chars (String.length "https://") public_url)).
      reflexivity. }
  destruct Hsecure as [rest ->].
  split; [apply (prefix_append "https://") | apply replace_first_https].
Qed.

End UploadReports.

(* ===================================================================== *)
(** ** What the route answers and records *)
(* ===================================================================== *)

Section Outcomes.
Context {Env : Type} {platform : Platform Env}.

(** The route after the image batch, by what [createShopifyProduct] does. *)
Lemma uploadProduct_after_batch (body : Body.t) (w : World Env) :
  let accessToken := Body.accessToken body in
  let imageUrls :=
    successes (imageOutcomes (Body.images body) (Body.shopUrl body) accessToken w) in
  let w1 := snd (runImages 0 (Body.images body) (Body.shopUrl body) accessToken w) in
  uploadProduct body w =
  match createShopifyProduct (productDataOf body) imageUrls
          (strip_scheme (Body.shopUrl body)) accessToken w1 with
  | (Returned productResult, w2) =>
      let '(recorded, e3) := Date_now (env w2) in
      let '(stamp, e4) := Date_now e3 in
      (ReplyOk (ProductResult.product productResult)
               (ProductResult.productUrl productResult)
               (ProductResult.adminUrl productResult)
               imageUrls (length imageUrls) stamp,
       mkWorld e4 (sent w2)
         {| shopifyUploads :=
              Some (default [] (shopifyUploads (session w2)) ++
                    [ {| UploadRecord.productId :=
                           get (ProductResult.product productResult) "id";
                         UploadRecord.title :=
                           get (ProductResult.product productResult) "title";
                         UploadRecord.imageUrls := imageUrls;
                         UploadRecord.timestamp := recorded |} ])%list |})
  | (Thrown error, w2) =>
      let '(stamp, e3) := Date_now (env w2) in
      (ReplyError 500 "Shopify Upload Failed" (message error) stamp,
       mkWorld e3 (sent w2) (session w2))
  end.
Proof.
  intros accessToken imageUrls w1.
  unfold uploadProduct. rewrite publish_unfold.
  rewrite (run_bind_returned _ _ _ _ _
             (run_uploadImages (Body.images body) (Body.shopUrl body) accessToken w)).
  fold imageUrls w1. unfold publishWith. rewrite run_bind.
  fold accessToken.
  destruct (createShopifyProduct _ _ _ _ w1) as [[productResult|error] w2]; [|done].
  unfold storeInSession, get_session, set_session, now.
  rewrite !run_bind. simpl.
  destruct (Date_now (env w2)) as [recorded e3]. simpl.
  rewrite !run_bind. simpl.
  by destruct (Date_now e3) as [stamp e4].
Qed.

(** The image batch leaves the session alone. *)
Lemma runImages_same_session images shopUrl accessToken (w : World Env) :
  session (snd (runImages 0 images shopUrl accessToken w)) = session w.
Proof.
  pose proof (uploadImages_same_session images shopUrl accessToken w) as Hsame.
  by rewrite run_uploadImages in Hsame.
Qed.

(** X6.  A product request that is rejected with a status other than 422
    makes the route answer 500 [Shopify Upload Failed]: with [Invalid
    Shopify access token] for status 401, and otherwise with [Shopify
    product creation failed: ] followed by the message of the rejection.
    The product request was the last request sent, and the session is
    what it was. *)
Theorem product_rejection_reported (body : Body.t) (w : World Env) :
  let shop := strip_scheme (Body.shopUrl body) in
  let accessToken := Body.accessToken body in
  let imageUrls :=
    successes (imageOutcomes (Body.images body) (Body.shopUrl body) accessToken w) in
  let w1 := snd (runImages 0 (Body.images body) (Body.shopUrl body) accessToken w) in
  ∀ product err e2,
    productPayload (productDataOf body) imageUrls w1 = (Returned product, w1) →
    axios_post (productRequest shop accessToken product) (env w1) = (inr err, e2) →
    status_is err 422 = false →
    let report :=
      if status_is err 401 then "Invalid Shopify access token"
      else "Shopify product creation failed: " +:+ message err in
    ∃ stamp w3,
      uploadProduct body w =
        (ReplyError 500 "Shopify Upload Failed" report stamp, w3) ∧
      sent w3 = (sent w1 ++ [productRequest shop accessToken product])%list ∧
      session w3 = session w.
Proof.
  intros shop accessToken imageUrls w1 product err e2 Hp Hpost H422 report.
  assert (Hcreate :
    createShopifyProduct (productDataOf body) imageUrls shop accessToken w1
    = (Thrown (Error report),
       mkWorld e2 (sent w1 ++ [productRequest shop accessToken product])%list (session w1))).
  { unfold createShopifyProduct, try_catch.
    rewrite run_bind, Hp, run_bind, run_post. cbv zeta.
    fold (productRequest shop accessToken product).
    rewrite Hpost. simpl. rewrite H422. unfold report.
    by destruct (status_is err 401). }
  pose proof (uploadProduct_after_batch body w) as Hroute. cbv zeta in Hroute.
  fold accessToken imageUrls w1 shop in Hroute. rewrite Hcreate in Hroute.
  simpl in Hroute. destruct (Date_now e2) as [stamp e3].
  eexists _, _. split; [exact Hroute |]. split; [done |]. simpl.
  apply runImages_same_session.
Qed.

End Outcomes.

Section Recording.
Context {Env : Type} {platform : Platform Env}.

(** X7.  When the product is created, the route answers with the product,
    its two links, the URLs of the image batch and their number, and the
    session log gains exactly one record at its end, holding the id and
    title of the product and the same URLs; the records that were there
    stay, in their order. *)
Theorem successful_publish_recorded
    (body : Body.t) (w w2 : World Env) (productResult : ProductResult.t) :
  let shop := strip_scheme (Body.shopUrl body) in
  let accessToken := Body.accessToken body in
  let imageUrls :=
    successes (imageOutcomes (Body.images body) (Body.shopUrl body) accessToken w) in
  let w1 := snd (runImages 0 (Body.images body) (Body.shopUrl body) accessToken w) in
  createShopifyProduct (productDataOf body) imageUrls shop accessToken w1
    = (Returned productResult, w2) →
  ∃ recorded stamp w3,
    uploadProduct body w =
      (ReplyOk (ProductResult.product productResult)
               (ProductResult.productUrl productResult)
               (ProductResult.adminUrl productResult)
               imageUrls (length imageUrls) stamp, w3) ∧
    shopifyUploads (session w3) =
      Some (default [] (shopifyUploads (session w)) ++
            [ {| UploadRecord.productId := get (ProductResult.product productResult) "id";
                 UploadRecord.title := get (ProductResult.product productResult) "title";
                 UploadRecord.imageUrls := imageUrls;
                 UploadRecord.timestamp := recorded |} ])%list ∧
    sent w3 = sent w2.
Proof.
  intros shop accessToken imageUrls w1 Hcreate.
  pose proof (uploadProduct_after_batch body w) as Hroute. cbv zeta in Hroute.
  fold accessToken imageUrls w1 shop in Hroute. rewrite Hcreate in Hroute.
  assert (Hsession : session w2 = session w).
  { pose proof (createShopifyProduct_same_session (productDataOf body) imageUrls
                  shop accessToken w1) as Hsame.
    rewrite Hcreate in Hsame. simpl in Hsame. unfold same_session in Hsame.
    rewrite Hsame. apply runImages_same_session. }
  destruct (Date_now (env w2)) as [recorded e3].
  destruct (Date_now e3) as [stamp e4].
  exists recorded, stamp. eexists. split; [exact Hroute |].
  simpl. by rewrite Hsession.
Qed.

(** X8.  When the product endpoint answers with a [product], the links
    returned are [https://<shop>/products/<handle>] and
    [https://<shop>/admin/products/<id>], with the handle and the id
    printed as a template literal prints them (so a missing handle gives
    a link that ends in [undefined]); both links are https URLs, and the
    product is handed back as the endpoint gave it. *)
Theorem product_links
    (productData : ProductData.t) (imageUrls : list string)
    (shop accessToken : string) (w : World Env)
    (product : Product.t) (resp : Response) (e : Env) (handle id : string) :
  productPayload productData imageUrls w = (Returned product, w) →
  axios_post (productRequest shop accessToken product) (env w) = (inl resp, e) →
  truthy (and_then (data resp) (get (data resp) "product")) = true →
  let created := get (data resp) "product" in
  template (get created "handle") = inl handle →
  template (get created "id") = inl id →
  ∃ productResult w',
    createShopifyProduct productData imageUrls shop accessToken w
      = (Returned productResult, w') ∧
    ProductResult.product productResult = created ∧
    ProductResult.productUrl productResult
      = "https://" +:+ shop +:+ "/products/" +:+ handle ∧
    ProductResult.adminUrl productResult
      = "https://" +:+ shop +:+ "/admin/products/" +:+ id ∧
    is_https (ProductResult.productUrl productResult) = true ∧
    is_https (ProductResult.adminUrl productResult) = true.
Proof.
  intros Hp Hpost Hshape created Hhandle Hid.
  eexists _, _. split.
  - unfold createShopifyProduct, try_catch.
    rewrite run_bind, Hp, run_bind, run_post. cbv zeta.
    fold (productRequest shop accessToken product).
    rewrite Hpost, Hshape, run_bind. fold created.
    rewrite Hhandle. simpl. rewrite run_bind, Hid. simpl. reflexivity.
  - simpl. repeat split; apply (prefix_append "https://").
Qed.

(** X9.  For a description that is a string and a price that is a number
    or a string, the product request is the last request of a run of the
    route, and its images are the URLs the image batch returned, in the
    same order and number, each passed once more through the rewrite of
    [http://]. *)
Theorem product_request_lists_batch (body : Body.t) (w : World Env) (d : string) :
  let shop := strip_scheme (Body.shopUrl body) in
  let accessToken := Body.accessToken body in
  let imageUrls :=
    successes (imageOutcomes (Body.images body) (Body.shopUrl body) accessToken w) in
  let w1 := snd (runImages 0 (Body.images body) (Body.shopUrl body) accessToken w) in
  Body.description body = JStr d →
  priced (Body.price body) →
  ∃ product,
    sent (snd (uploadProduct body w)) =
      (sent w1 ++ [productRequest shop accessToken product])%list ∧
    map Product.src (Product.images product) =
      map (replace_first "http://" "https://") imageUrls ∧
    length (Product.images product) = length imageUrls.
Proof.
  intros shop accessToken imageUrls w1 Hd Hprice.
  destruct (productPayload_returns (productDataOf body) imageUrls d w1 Hd Hprice)
    as (product & Hp & _).
  exists product.
  destruct (productPayload_images _ _ _ _ _ Hp) as [Hsrc Hlen].
  split; [| by split].
  rewrite <- (createShopifyProduct_sends _ _ shop accessToken _ _ Hp).
  pose proof (uploadProduct_after_batch body w) as Hroute. cbv zeta in Hroute.
  fold accessToken imageUrls w1 shop in Hroute. rewrite Hroute.
  destruct (createShopifyProduct _ _ _ _ w1) as [[productResult|error] w2]; simpl.
  - destruct (Date_now (env w2)) as [recorded e3]. by destruct (Date_now e3).
  - by destruct (Date_now (env w2)).
Qed.

Lemma substring0_short (n : nat) (s : string) :
  (String.length s ≤ n)%nat → substring0 n s = s.
Proof.
  unfold substring0. revert s.
  induction n as [|n IH]; intros [|c s] Hlen; simpl in *; try done; try lia.
  rewrite IH; [done | lia].
Qed.


(** X11.  A description of at most 160 characters is submitted whole as
    the meta description. *)
Theorem short_description_kept
    (productData : ProductData.t) (imageUrls : list string)
    (shop accessToken d : string) (w : World Env) :
  ProductData.description productData = JStr d →
  (String.length d ≤ 160)%nat →
  priced (ProductData.price productData) →
  ∃ product,
    sent (snd (createShopifyProduct productData imageUrls shop accessToken w)) =
      (sent w ++ [productRequest shop accessToken product])%list ∧
    Product.metafields_global_description_tag product = d ∧
    Product.body_html product = JStr d.
Proof.
  intros Hd Hlen Hprice.
  destruct (productPayload_returns productData imageUrls d w Hd Hprice)
    as (product & Hp & Hbody & Hmeta & _).
  exists product.
  split; [by apply createShopifyProduct_sends |].
  split; [| exact Hbody].
  by rewrite Hmeta, substring0_short.
Qed.

(** X12.  A description that is not a string, or a price that is
    [undefined] or [null], stops [createShopifyProduct] before it sends
    anything: it throws the generic failure, and the world is as it
    was. *)
Theorem unusable_fields_stop_the_product
    (productData : ProductData.t) (imageUrls : list string)
    (shop accessToken : string) (w : World Env) :
  (priced (ProductData.price productData) ∧
   not_a_string (ProductData.description productData)) ∨
  ProductData.price productData = JUndefined ∨
  ProductData.price productData = JNull →
  ∃ reason,
    createShopifyProduct productData imageUrls shop accessToken w =
    (Thrown (Error ("Shopify product creation failed: " +:+ reason)), w).
Proof.
  intros Hbad.
  assert (Hpayload : ∃ reason,
            productPayload productData imageUrls w = (Thrown (Error reason), w)).
  { unfold productPayload. rewrite run_bind.
    destruct Hbad as [[Hprice Hdesc] | [-> | ->]]; simpl; eauto.
    assert (Htext : ∃ priceText,
              toString (ProductData.price productData) = inl priceText).
    { destruct (ProductData.price productData); simpl in *; try done; eauto. }
    destruct Htext as [priceText ->]. simpl. rewrite run_bind.
    destruct (ProductData.description productData); simpl in *; try done; eauto. }
  destruct Hpayload as [reason Hpayload]. exists reason.
  unfold createShopifyProduct, try_catch. by rewrite run_bind, Hpayload.
Qed.

End Recording.

(* ===================================================================== *)
(** ** The requests of a run: whom they reach, and how many they are *)
(* ===================================================================== *)

Section Requests.
Context {Env : Type} {platform : Platform Env}.

(** Whatever holds of the requests of the batch and of the product
    request holds of every request of a run of the route. *)
Lemma uploadProduct_sends_only (P : Request → Prop) (body : Body.t) (w : World Env) :
  batch_allowed P (strip_scheme (Body.shopUrl body)) (Body.accessToken body) →
  (∀ product,
     P (productRequest (strip_scheme (Body.shopUrl body)) (Body.accessToken body) product)) →
  sends_only P w (snd (uploadProduct body w)).
Proof.
  intros Hbatch Hproduct.
  assert (Hpublish : sends_only P w (snd (publish body w))).
  { rewrite publish_unfold, run_bind.
    pose proof (uploadImages_sends_only P (Body.images body) (Body.shopUrl body)
                  (Body.accessToken body) Hbatch w) as H1.
    destruct (uploadImages _ _ _ w) as [[imageUrls|e] w1]; simpl in *; [|done].
    pose proof (createShopifyProduct_sends_only P (productDataOf body) imageUrls
                  _ _ Hproduct w1) as H2.
    pose proof (publishWith_sent body imageUrls w1) as Hsent.
    destruct H1 as (n1 & H1 & P1), H2 as (n2 & H2 & P2).
    exists (n1 ++ n2)%list. split; [| by apply Forall_app].
    by rewrite Hsent, H2, H1, app_assoc. }
  unfold uploadProduct.
  destruct (publish body w) as [[reply|e] w']; [done |].
  by destruct (Date_now (env w')).
Qed.

(** X13.  In a run of the route the access token travels only in the
    POSTs, each with the thirty-second timeout and each to the uploads or
    the products URL of the shop (the shop URL without its scheme, under
    https); the GETs that download image sources carry no token and no
    body. *)
Theorem token_only_to_shop (body : Body.t) (w : World Env) :
  sends_only
    (λ r, keeps_token (Body.accessToken body) r ∧
          posts_to_shop (strip_scheme (Body.shopUrl body)) r)
    w (snd (uploadProduct body w)).
Proof.
  apply uploadProduct_sends_only.
  - split.
    + intros u ms. by split.
    + intros imageData. split; [done | by left].
  - intros product. split; [done | by right].
Qed.

Lemma cost_weaken {A} (n n' : nat) (m : M Env A) :
  (n ≤ n')%nat → sends_at_most n m → sends_at_most n' m.
Proof. intros Hle Hm w. destruct (Hm w) as (new & Hnew & Hlen). exists new. split; [done | lia]. Qed.

Lemma cost_silent {A} (m : M Env A) :
  (∀ w, sent (snd (m w)) = sent w) → sends_at_most 0 m.
Proof. intros Hm w. exists []. by rewrite Hm, app_nil_r. Qed.

Lemma cost_bind {A B} (n k : nat) (m : M Env A) (f : A → M Env B) :
  sends_at_most n m → (∀ a, sends_at_most k (f a)) → sends_at_most (n + k) (m ≫= f).
Proof.
  intros Hm Hf w. rewrite run_bind.
  destruct (Hm w) as (n1 & H1 & L1).
  destruct (m w) as [[a|e] w1]; simpl in *.
  - destruct (Hf a w1) as (n2 & H2 & L2).
    exists (n1 ++ n2)%list. rewrite H2, H1, app_assoc, length_app. split; [done | lia].
  - exists n1. split; [done | lia].
Qed.

Lemma cost_try_catch {A} (n k : nat) (m : M Env A) (h : JsError → M Env A) :
  sends_at_most n m → (∀ e, sends_at_most k (h e)) → sends_at_most (n + k) (try_catch m h).
Proof.
  intros Hm Hh w. unfold try_catch.
  destruct (Hm w) as (n1 & H1 & L1).
  destruct (m w) as [[a|e] w1]; simpl in *.
  - exists n1. split; [done | lia].
  - destruct (Hh e w1) as (n2 & H2 & L2).
    exists (n1 ++ n2)%list. rewrite H2, H1, app_assoc, length_app. split; [done | lia].
Qed.

Lemma cost_ret {A} (a : A) : sends_at_most 0 (mret a : M Env A).
Proof. by apply cost_silent. Qed.

Lemma cost_throw {A} (e : JsError) : sends_at_most 0 (throw e : M Env A).
Proof. by apply cost_silent. Qed.

Lemma cost_lift {A} (r : A + JsError) : sends_at_most 0 (lift r : M Env A).
Proof. apply cost_silent. intros w. by destruct r. Qed.

Lemma cost_call {A} (f : Env → (A + JsError) * Env) : sends_at_most 0 (call f).
Proof.
  apply cost_silent. intros w. unfold call. by destruct (f (env w)) as [[a|err] e].
Qed.

Lemma cost_now : sends_at_most 0 (now : M Env N).
Proof. apply cost_silent. intros w. unfold now. by destruct (Date_now (env w)). Qed.

Lemma cost_record_request (r : Request) : sends_at_most 1 (record_request r : M Env unit).
Proof. intros w. by exists [r]. Qed.

Lemma cost_get_bytes u ms : sends_at_most 1 (get_bytes u ms).
Proof.
  unfold get_bytes. apply (cost_bind 1 0); [apply cost_record_request |].
  intros _. apply cost_call.
Qed.

Lemma cost_post u accessToken body ms : sends_at_most 1 (post u accessToken body ms).
Proof.
  unfold post. apply (cost_bind 1 0); [apply cost_record_request |].
  intros _. apply cost_call.
Qed.

Lemma cost_readImage image : sends_at_most 1 (readImage image).
Proof.
  destruct image; simpl;
    try (apply (cost_weaken 0); [lia | first [apply cost_throw | apply cost_ret]]).
  destruct (startsWith s "data:image/").
  - apply (cost_weaken 0); [lia |].
    destruct (_ !! _); [apply cost_ret | apply cost_throw].
  - destruct (_ || _); [apply cost_get_bytes |].
    apply (cost_weaken 0); [lia | apply cost_throw].
Qed.

Lemma cost_processImageForShopify imageBuffer filename :
  sends_at_most 0 (processImageForShopify imageBuffer filename).
Proof.
  apply (cost_try_catch 0 0); [| intros; apply cost_throw].
  apply (cost_bind 0 0); [apply cost_call | intros; apply cost_ret].
Qed.

Lemma cost_uploadImageToShopify imageData shop accessToken :
  sends_at_most 1 (uploadImageToShopify imageData shop accessToken).
Proof.
  intros w. exists [uploadRequest shop accessToken imageData].
  split; [apply uploadImageToShopify_sends | done].
Qed.

Lemma cost_attemptImage i image shopUrl accessToken :
  sends_at_most 2 (attemptImage i image shopUrl accessToken).
Proof.
  unfold attemptImage.
  apply (cost_bind 1 1); [apply cost_readImage | intros].
  apply (cost_bind 0 1); [apply cost_now | intros].
  apply (cost_bind 0 1); [apply cost_processImageForShopify | intros].
  apply cost_uploadImageToShopify.
Qed.

Lemma cost_processImage i image shopUrl accessToken imageUrls :
  sends_at_most 2 (processImage i image shopUrl accessToken imageUrls).
Proof.
  apply (cost_try_catch 2 0); [| intros; apply cost_ret].
  apply (cost_bind 2 0); [apply cost_attemptImage | intros].
  destruct (UploadResult.success a); apply cost_ret.
Qed.

Lemma cost_uploadLoop images : ∀ i shopUrl accessToken imageUrls,
  sends_at_most (2 * length images)
    (uploadLoop i images shopUrl accessToken imageUrls).
Proof.
  induction images as [|image rest IH]; intros i shopUrl accessToken imageUrls.
  - apply cost_ret.
  - simpl uploadLoop.
    apply (cost_weaken (2 + 2 * length rest)); [simpl; lia |].
    apply cost_bind; [apply cost_processImage | intros; apply IH].
Qed.

Lemma cost_uploadImages images shopUrl accessToken :
  sends_at_most (2 * length images) (uploadImages images shopUrl accessToken).
Proof.
  unfold uploadImages. destruct (0 <? length images)%nat.
  - apply cost_uploadLoop.
  - apply (cost_weaken 0); [lia | apply cost_ret].
Qed.

Lemma cost_publishWith body imageUrls : sends_at_most 1 (publishWith body imageUrls).
Proof.
  intros w. rewrite publishWith_sent.
  unfold createShopifyProduct, try_catch.
  assert (Hpayload : ∃ r, productPayload (productDataOf body) imageUrls w = (r, w)).
  { unfold productPayload. rewrite run_bind.
    destruct (toString _); simpl; [| eauto].
    rewrite run_bind. destruct (substring_0_160 _); simpl; eauto. }
  destruct Hpayload as [[product|error] Hpayload].
  - exists [productRequest (strip_scheme (Body.shopUrl body)) (Body.accessToken body) product].
    split; [| done].
    by apply (createShopifyProduct_sends (productDataOf body) imageUrls).
  - exists []. rewrite run_bind, Hpayload. simpl.
    split; [| lia]. rewrite app_nil_r.
    by destruct (status_is error 401), (status_is error 422).
Qed.

End Requests.

(* ===================================================================== *)
(** ** Reading one image source *)
(* ===================================================================== *)

Lemma split_on_plain (s : string) :
  no_comma s = true → split_on "," s = [s].
Proof.
  induction s as [|c s IH]; [done |]. simpl.
  intros [Hc Hs]%andb_true_iff. apply negb_true_iff in Hc.
  by rewrite Hc, IH.
Qed.

Lemma split_on_comma (a b : string) :
  no_comma a = true → split_on "," (a +:+ String "," b) = a :: split_on "," b.
Proof.
  induction a as [|c a IH]; [done |].
  change (String c a +:+ String "," b) with (String c (a +:+ String "," b)).
  simpl. intros [Hc Ha]%andb_true_iff. apply negb_true_iff in Hc.
  by rewrite Hc, IH.
Qed.

Lemma no_comma_append (a b : string) :
  no_comma a = true → no_comma b = true → no_comma (a +:+ b) = true.
Proof.
  intros Ha Hb. induction a as [|c a IH]; [done |].
  change (String c a +:+ b) with (String c (a +:+ b)).
  simpl in *. apply andb_true_iff in Ha as [Hc Ha].
  by rewrite Hc, IH.
Qed.

Section Sources.
Context {Env : Type} {platform : Platform Env}.

(** X15.  How a source is read.  A [data:image/] string is decoded from
    the text between its first and its second comma (or the end), with
    no request made; without any comma it is refused.  A buffer is taken
    as it is.  A string that starts with [http://] or [https://] is
    downloaded with one GET to that very string, without token, with the
    fifteen-second timeout, and a failed download is thrown on as it
    is. *)
Theorem sources_are_read (w : World Env) :
  (∀ kind base64Data,
     no_comma kind = true → no_comma base64Data = true →
     readImage (JStr ("data:image/" +:+ kind +:+ String "," base64Data)) w
       = (Returned (Buffer_from_base64 base64Data), w) ∧
     ∀ rest,
       readImage (JStr ("data:image/" +:+ kind +:+
                        String "," (base64Data +:+ String "," rest))) w
       = (Returned (Buffer_from_base64 base64Data), w)) ∧
  (∀ kind,
     no_comma kind = true →
     ∃ error, readImage (JStr ("data:image/" +:+ kind)) w = (Thrown error, w)) ∧
  (∀ bytes, readImage (JBuffer bytes) w = (Returned bytes, w)) ∧
  (∀ (secure : bool) rest,
     let source := (if secure then "https://" else "http://") +:+ rest in
     let download := {| method := GET; url := source; token := None;
                        payload := NoPayload; timeout := 15000 |} in
     readImage (JStr source) w =
     match axios_get download (env w) with
     | (inl bytes, e) =>
         (Returned bytes, mkWorld e (sent w ++ [download])%list (session w))
     | (inr error, e) =>
         (Thrown error, mkWorld e (sent w ++ [download])%list (session w))
     end).
Proof.
  assert (Hdata : ∀ kind tail,
            readImage (JStr ("data:image/" +:+ kind +:+ tail)) w =
            match split_on "," ("data:image/" +:+ kind +:+ tail) !! 1%nat with
            | Some base64Data => (Returned (Buffer_from_base64 base64Data), w)
            | None =>
                (Thrown (Error "The first argument must be of type string or an instance of Buffer, ArrayBuffer, or Array or an Array-like Object. Received undefined"), w)
            end).
  { intros kind tail. unfold readImage, startsWith.
    rewrite (prefix_append "data:image/").
    by destruct (_ !! _). }
  assert (Hhead : ∀ kind, no_comma kind = true →
            no_comma ("data:image/" +:+ kind) = true).
  { intros kind Hkind. by apply no_comma_append. }
  assert (Hassoc : ∀ kind tail,
            "data:image/" +:+ kind +:+ tail = ("data:image/" +:+ kind) +:+ tail).
  { intros kind tail. apply append_assoc. }
  split; [| split; [| split]].
  - intros kind base64Data Hkind Hb64. split.
    + rewrite Hdata, Hassoc, split_on_comma by auto.
      by rewrite split_on_plain.
    + intros rest.
      rewrite Hdata, Hassoc, split_on_comma by auto.
      by rewrite split_on_comma.
  - intros kind Hkind.
    specialize (Hdata kind EmptyString).
    replace ("data:image/" +:+ kind +:+ EmptyString) with ("data:image/" +:+ kind)
      in Hdata by (by rewrite append_empty).
    rewrite split_on_plain in Hdata by auto. eexists. exact Hdata.
  - done.
  - intros secure rest source download.
    assert (Hkind : startsWith source "data:image/" = false) by (by destruct secure).
    assert (Hweb : startsWith source "http://" || startsWith source "https://" = true).
    { destruct secure; unfold startsWith, source.
      - rewrite (prefix_append "https://"). apply orb_true_r.
      - by rewrite (prefix_append "http://"). }
    unfold readImage. rewrite Hkind, Hweb.
    unfold get_bytes. rewrite run_bind. unfold record_request, call. simpl.
    fold download. by destruct (axios_get download (env w)) as [[bytes|error] e].
Qed.

End Sources.

(* ===================================================================== *)
(** ** The read-only routes *)
(* ===================================================================== *)


Section ReadRouteProperties.
Context {Env : Type} {platform : Platform Env} {api : ShopApi Env}.

(** X16.  [/session-uploads] lists the session log and its length and
    changes neither the session nor the requests sent.  Called after a
    run of [/upload-product], it lists what was there before the run,
    followed, when the run succeeded, by one record with the id and the
    title of the product and the image URLs of the answer; after a run
    that failed it lists the same as before. *)
Theorem session_uploads_follow_the_log (body : Body.t) (w : World Env) :
  let before := default [] (shopifyUploads (session w)) in
  let after := snd (uploadProduct body w) in
  ∃ uploads stamp e,
    sessionUploads after =
      (SessionUploads uploads (length uploads) stamp,
       mkWorld e (sent after) (session after)) ∧
    match fst (uploadProduct body w) with
    | ReplyError _ _ _ _ => uploads = before
    | ReplyOk product _ _ imageUrls _ _ =>
        ∃ recorded,
          uploads =
          (before ++ [ {| UploadRecord.productId := get product "id";
                          UploadRecord.title := get product "title";
                          UploadRecord.imageUrls := imageUrls;
                          UploadRecord.timestamp := recorded |} ])%list
    end.
Proof.
  intros before after.
  exists (default [] (shopifyUploads (session after))).
  unfold sessionUploads. destruct (Date_now (env after)) as [stamp e].
  exists stamp, e. split; [done |].
  pose proof (failure_keeps_session body w) as Hkeep.
  pose proof (uploadProduct_after_batch body w) as Hroute. cbv zeta in Hroute.
  set (imageUrls := successes _) in Hroute. set (w1 := snd (runImages _ _ _ _ _)) in Hroute.
  pose proof (createShopifyProduct_same_session (productDataOf body) imageUrls
                (strip_scheme (Body.shopUrl body)) (Body.accessToken body) w1) as Hsame.
  pose proof (runImages_same_session (Body.images body) (Body.shopUrl body)
                (Body.accessToken body) w) as Hbatch.
  fold w1 in Hbatch. unfold after. clear after.
  destruct (createShopifyProduct _ _ _ _ w1) as [[productResult|error] w2];
    simpl in Hsame; unfold same_session in Hsame.
  - destruct (Date_now (env w2)) as [recorded e3].
    destruct (Date_now e3) as [stamp' e4].
    rewrite Hroute. simpl. exists recorded. unfold before.
    by rewrite Hsame, Hbatch.
  - destruct (Date_now (env w2)) as [stamp' e3].
    rewrite Hroute. simpl. unfold before. by rewrite Hsame, Hbatch.
Qed.

(** X17.  [/shop-info] makes at most one request, and only to
    [shop.json] of the admin API of the shop the [shopUrl] parameter
    names (its scheme stripped, under https), with the [accessToken]
    parameter as token, a ten-second timeout and no [limit].  When a
    parameter is missing or empty it answers 400 and asks nothing; when
    [shopUrl] is present but not a string (a parameter given twice, say)
    it answers 500 and asks nothing. *)
Theorem shop_info_asks_the_shop_once (shopUrl accessToken : JsValue) (e : Env) :
  let '(reply, asked, e') := shopInfo shopUrl accessToken e in
  (length asked ≤ 1)%nat ∧
  Forall (λ q, well_aimed shopUrl accessToken "shop.json" q ∧
               query_limit q = None ∧ query_timeout q = 10000%Z) asked ∧
  (truthy shopUrl = false ∨ truthy accessToken = false →
   reply = Refused 400 "Missing Parameters" "shopUrl and accessToken are required" ∧
   asked = [] ∧ e' = e) ∧
  (truthy shopUrl = true → truthy accessToken = true → not_a_string shopUrl →
   asked = [] ∧
   ∃ stamp, reply = ReadFailed 500 "Shop Info Failed" "shopUrl.replace is not a function" stamp).
Proof.
  unfold shopInfo, read_failed.
  destruct (truthy shopUrl) eqn:Hshop; simpl.
  2: { repeat split; try done; lia. }
  destruct (truthy accessToken) eqn:Htoken; simpl.
  2: { repeat split; try done; lia. }
  destruct shopUrl as [| | | |s| | |]; simpl in *; try done;
    try (destruct (Date_now e) as [stamp e']; simpl;
         split; [lia |]; split; [constructor |]; split; [by intros [|] | eauto]).
  assert (Haimed : ∀ q, q = {| query_url := "https://" +:+ strip_scheme s +:+
                                            "/admin/api/2023-10/shop.json";
                               query_token := accessToken;
                               query_limit := None;
                               query_timeout := 10000 |} →
            Forall (λ q, well_aimed (JStr s) accessToken "shop.json" q ∧
                         query_limit q = None ∧ query_timeout q = 10000%Z) [q]).
  { intros q ->. constructor; [| constructor]. split; [| done]. by exists s. }
  destruct (axios_get_json _ e) as [[resp|error] e1].
  - destruct (read (data resp) "shop") as [shop|error].
    + destruct (Date_now e1) as [stamp e2].
      split; [done |]. split; [by apply Haimed |]. split; [by intros [|] | done].
    + destruct (Date_now e1) as [stamp e2].
      split; [done |]. split; [by apply Haimed |]. split; [by intros [|] | done].
  - destruct (Date_now e1) as [stamp e2].
    split; [done |]. split; [by apply Haimed |]. split; [by intros [|] | done].
Qed.

End ReadRouteProperties.

Section ReadAnswers.
Context {Env : Type} {platform : Platform Env} {api : ShopApi Env}.


(** X19.  What [/shop-info] answers once the request is made: the [shop]
    of the body when the shop resolves, also when the body has none (the
    answer is then a success without data); 500 [Shop Info Failed] with
    the message of the rejection when the shop rejects, whatever the
    status. *)
Theorem shop_info_answers (s : string) (accessToken : JsValue) (e : Env) :
  truthy (JStr s) = true → truthy accessToken = true →
  let q := {| query_url := "https://" +:+ strip_scheme s +:+ "/admin/api/2023-10/shop.json";
              query_token := accessToken;
              query_limit := None;
              query_timeout := 10000 |} in
  (∀ resp e1,
     axios_get_json q e = (inl resp, e1) →
     data resp ≠ JUndefined → data resp ≠ JNull →
     ∃ stamp e2,
       shopInfo (JStr s) accessToken e =
       (ShopInfo (get (data resp) "shop") stamp, [q], e2)) ∧
  (∀ error e1,
     axios_get_json q e = (inr error, e1) →
     ∃ stamp e2,
       shopInfo (JStr s) accessToken e =
       (ReadFailed 500 "Shop Info Failed" (message error) stamp, [q], e2)).
Proof.
  intros Hshop Htoken q. unfold shopInfo, read_failed.
  rewrite Hshop, Htoken. simpl. fold q. split.
  - intros resp e1 -> Hu Hn.
    assert (Hread : read (data resp) "shop" = inl (get (data resp) "shop")).
    { by destruct (data resp). }
    rewrite Hread. destruct (Date_now e1) as [stamp e2]. eauto.
  - intros error e1 ->. destruct (Date_now e1) as [stamp e2]. eauto.
Qed.

(** X20.  What [/products] answers once the request is made and the
    shop resolves: when the body holds an array of products, that array
    and its length; when the body holds no [products], 500 [Products
    List Failed], because the length of [undefined] is read. *)
Theorem products_answers
    (s : string) (accessToken limit : JsValue) (e : Env) (n : spec_float) :
  truthy (JStr s) = true → truthy accessToken = true →
  parseInt (match limit with
            | JUndefined => JNum (Number_of_Z 50)
            | _ => limit
            end) = inl n →
  let q := {| query_url :=
                "https://" +:+ strip_scheme s +:+ "/admin/api/2023-10/products.json";
              query_token := accessToken;
              query_limit := Some (Math_min n (Number_of_Z 250));
              query_timeout := 15000 |} in
  ∀ resp e1,
    axios_get_json q e = (inl resp, e1) →
    (∀ products,
       get (data resp) "products" = JArr products →
       ∃ stamp e2,
         listProducts (JStr s) accessToken limit e =
         (ProductList (JArr products)
            (JNum (Number_of_Z (Z.of_nat (length products)))) stamp, [q], e2)) ∧
    (data resp ≠ JUndefined → data resp ≠ JNull →
     get (data resp) "products" = JUndefined →
     ∃ stamp e2,
       listProducts (JStr s) accessToken limit e =
       (ReadFailed 500 "Products List Failed"
          "Cannot read properties of undefined (reading 'length')" stamp, [q], e2)).
Proof.
  intros Hshop Htoken Hlimit q resp e1 Hask.
  unfold listProducts, read_failed.
  rewrite Hshop, Htoken. simpl. rewrite Hlimit. fold q. rewrite Hask.
  split.
  - intros products Hproducts.
    assert (Hread : read (data resp) "products" = inl (JArr products)).
    { destruct (data resp); simpl in *; try done. by rewrite Hproducts. }
    rewrite Hread. simpl. destruct (Date_now e1) as [stamp e2]. eauto.
  - intros Hu Hn Hproducts.
    assert (Hread : read (data resp) "products" = inl JUndefined).
    { destruct (data resp); simpl in *; try done. by rewrite Hproducts. }
    rewrite Hread. simpl. destruct (Date_now e1) as [stamp e2]. eauto.
Qed.

End ReadAnswers.

(* ===================================================================== *)
(** ** These theorems at work on concrete requests *)
(* ===================================================================== *)

(** A name with two dots, and a name with none. *)
Lemma processed_image_is_jpeg_witness :
  processImageForShopify (platform := Mock.cdn) [] "photo.of.pot.png" Mock.start =
  (Returned {| ImageData.buffer := []; ImageData.filename := "photo.of.pot.jpg";
               ImageData.mimetype := "image/jpeg" |}, Mock.start) ∧
  processImageForShopify (platform := Mock.cdn) [] "photo" Mock.start =
  (Returned {| ImageData.buffer := []; ImageData.filename := "photo";
               ImageData.mimetype := "image/jpeg" |}, Mock.start).
Proof.
  destruct (processed_image_is_jpeg (platform := Mock.cdn) [] [] Mock.start
              1700000000000%N eq_refl) as [Hdotted Hplain].
  split.
  - exact (Hdotted "photo.of.pot" "png" ltac:(discriminate) eq_refl).
  - exact (Hplain "photo" eq_refl).
Defined.

(** A buffer the image library cannot read. *)
Lemma unreadable_image_not_uploaded_witness :
  processImage (platform := Scenario.unreadable) 0 (JBuffer [])
    "craft.myshopify.com" "shpat_1" ["https://cdn.shopify.com/s/files/jug.jpg"]
    Mock.start =
  (Returned ["https://cdn.shopify.com/s/files/jug.jpg"],
   mkWorld 1700000000001%N [] {| shopifyUploads := None |}).
Proof.
  destruct (unreadable_image_not_uploaded (platform := Scenario.unreadable)
              0 (JBuffer []) "craft.myshopify.com" "shpat_1"
              Mock.start Mock.start [] 1700000000000%N 1700000000001%N
              1700000000001%N (Error "Input buffer contains unsupported image format")
              eq_refl eq_refl eq_refl) as [_ Hturn].
  exact (Hturn ["https://cdn.shopify.com/s/files/jug.jpg"]).
Defined.

(** The asset endpoint answers 401. *)
Lemma upload_rejection_reported_witness :
  fst (uploadImageToShopify (platform := Scenario.rejecting 401)
         Mock.pixel "craft.myshopify.com" "shpat_1" Mock.start)
  = Thrown (Error "Invalid Shopify access token").
Proof.
  destruct (upload_rejection_reported (platform := Scenario.rejecting 401)
              Mock.pixel "craft.myshopify.com" "shpat_1" Mock.start
              (Mock.rejected 401 JNull) 1700000000000%N eq_refl) as (H401 & _ & _).
  by rewrite (H401 eq_refl).
Defined.

(** The asset endpoint answers with an upload that has no URL. *)
Lemma upload_needs_string_public_url_witness :
  ∃ reason,
    fst (uploadImageToShopify (platform := Scenario.keyless)
           Mock.pixel "craft.myshopify.com" "shpat_1" Mock.start)
    = Thrown (Error ("Shopify upload failed: " +:+ reason)).
Proof.
  destruct (upload_needs_string_public_url (platform := Scenario.keyless)
              Mock.pixel "craft.myshopify.com" "shpat_1" Mock.start
              {| status := 200;
                 data := JObj {[ "upload" := JObj {[ "id" := JNum one ]} ]} |}
              1700000000000%N eq_refl eq_refl) as [Hfails _].
  destruct Hfails as [reason Hrun]; [by vm_compute |].
  exists reason. by rewrite Hrun.
Defined.

(** The asset endpoint hands out an [http://] URL. *)
Lemma web_urls_come_back_secure_witness :
  ∃ uploadResult w',
    uploadImageToShopify (platform := Mock.shop "http://cdn.shopify.com/s/files/pot.jpg")
      Mock.pixel "craft.myshopify.com" "shpat_1" Mock.start = (Returned uploadResult, w') ∧
    is_https (UploadResult.publicUrl uploadResult) = true.
Proof.
  destruct (web_urls_come_back_secure
              (platform := Mock.shop "http://cdn.shopify.com/s/files/pot.jpg")
              Mock.pixel "craft.myshopify.com" "shpat_1" Mock.start
              (Mock.upload_ok "http://cdn.shopify.com/s/files/pot.jpg")
              1700000000000%N "http://cdn.shopify.com/s/files/pot.jpg")
    as (uploadResult & w' & Hrun & Hsecure & _).
  - reflexivity.
  - by vm_compute.
  - by vm_compute.
  - by vm_compute.
  - by exists uploadResult, w'.
Defined.

(** The product endpoint answers 401. *)
Lemma product_rejection_reported_witness :
  let body := Mock.listing "craft.myshopify.com" [] "A clay pot" in
  ∃ stamp w3,
    uploadProduct (platform := Scenario.rejecting 401) body Mock.start =
    (ReplyError 500 "Shopify Upload Failed" "Invalid Shopify access token" stamp, w3) ∧
    session w3 = session Mock.start.
Proof.
  intros body.
  destruct (productPayload_returns (platform := Scenario.rejecting 401)
              (productDataOf body) [] "A clay pot" Mock.start eq_refl I)
    as (product & Hpayload & _).
  destruct (product_rejection_reported (platform := Scenario.rejecting 401)
              body Mock.start product (Mock.rejected 401 JNull) 1700000000000%N
              Hpayload eq_refl eq_refl) as (stamp & w3 & Hreply & _ & Hsession).
  by exists stamp, w3.
Defined.

(** A product created in a session that already lists one. *)
Lemma successful_publish_recorded_witness :
  let body := Mock.listing "craft.myshopify.com"
                [JStr "data:image/png;base64,AAAA"] "A clay pot" in
  ∃ recorded w3,
    snd (uploadProduct (platform := Mock.cdn) body Scenario.returning) = w3 ∧
    shopifyUploads (session w3) =
      Some [ Scenario.clay_pot;
             {| UploadRecord.productId := JStr "812";
                UploadRecord.title := JUndefined;
                UploadRecord.imageUrls :=
                  ["https://cdn.shopify.com/s/files/product_image_1_1700000000000.jpg"];
                UploadRecord.timestamp := recorded |} ].
Proof.
  intros body.
  destruct (createShopifyProduct (platform := Mock.cdn) (productDataOf body)
              (successes (imageOutcomes (platform := Mock.cdn) (Body.images body)
                            (Body.shopUrl body) (Body.accessToken body)
                            Scenario.returning))
              (strip_scheme (Body.shopUrl body)) (Body.accessToken body)
              (snd (runImages (platform := Mock.cdn) 0 (Body.images body)
                      (Body.shopUrl body) (Body.accessToken body) Scenario.returning)))
    as [[productResult|error] w2] eqn:Hcreate.
  - destruct (successful_publish_recorded (platform := Mock.cdn) body
                Scenario.returning w2 productResult Hcreate)
      as (recorded & stamp & w3 & Hreply & Hlog & _).
    exists recorded, w3. split; [by rewrite Hreply |].
    rewrite Hlog. vm_compute in Hcreate. injection Hcreate as <- _.
    by vm_compute.
  - vm_compute in Hcreate. discriminate.
Defined.

(** The product endpoint answers with handle [clay-pot] and id [812]. *)
Lemma product_links_witness :
  ∃ productResult w',
    createShopifyProduct (platform := Mock.cdn)
      (productDataOf (Mock.listing "craft.myshopify.com" [] "A clay pot")) []
      "craft.myshopify.com" "shpat_1" Mock.start = (Returned productResult, w') ∧
    ProductResult.productUrl productResult
      = "https://craft.myshopify.com/products/clay-pot" ∧
    ProductResult.adminUrl productResult
      = "https://craft.myshopify.com/admin/products/812".
Proof.
  destruct (productPayload_returns (platform := Mock.cdn)
              (productDataOf (Mock.listing "craft.myshopify.com" [] "A clay pot"))
              [] "A clay pot" Mock.start eq_refl I)
    as (product & Hpayload & _).
  destruct (product_links (platform := Mock.cdn) _ [] "craft.myshopify.com" "shpat_1"
              Mock.start product Mock.product_ok 1700000000000%N "clay-pot" "812"
              Hpayload)
    as (productResult & w' & Hrun & _ & Hshop & Hadmin & _).
  - reflexivity.
  - by vm_compute.
  - by vm_compute.
  - by vm_compute.
  - by exists productResult, w'.
Defined.

(** One image, uploaded and listed in the product. *)
Lemma product_request_lists_batch_witness :
  let body := Mock.listing "craft.myshopify.com"
                [JStr "data:image/png;base64,AAAA"] "A clay pot" in
  ∃ product,
    last (sent (snd (uploadProduct (platform := Mock.cdn) body Mock.start))) =
      Some (productRequest "craft.myshopify.com" "shpat_1" product) ∧
    map Product.src (Product.images product) =
      ["https://cdn.shopify.com/s/files/product_image_1_1700000000000.jpg"].
Proof.
  intros body.
  destruct (product_request_lists_batch (platform := Mock.cdn) body Mock.start
              "A clay pot" eq_refl I) as (product & Hsent & Hsrc & _).
  exists product. split.
  - rewrite Hsent. apply last_snoc.
  - rewrite Hsrc. by vm_compute.
Defined.


(** A description of ten characters. *)
Lemma short_description_kept_witness :
  ∃ product,
    sent (snd (createShopifyProduct (platform := Mock.cdn)
                 (productDataOf (Mock.listing "craft.myshopify.com" [] "A clay pot")) []
                 "craft.myshopify.com" "shpat_1" Mock.start)) =
      [productRequest "craft.myshopify.com" "shpat_1" product] ∧
    Product.metafields_global_description_tag product = "A clay pot".
Proof.
  destruct (short_description_kept (platform := Mock.cdn)
              (productDataOf (Mock.listing "craft.myshopify.com" [] "A clay pot")) []
              "craft.myshopify.com" "shpat_1" "A clay pot" Mock.start eq_refl)
    as (product & Hsent & Hmeta & _).
  - simpl. lia.
  - exact I.
  - by exists product.
Defined.

(** A description that is a number. *)
Lemma unusable_fields_stop_the_product_witness :
  let productData :=
    {| ProductData.title := JStr "Clay pot";
       ProductData.description := JNum one;
       ProductData.price := JStr "12.50";
       ProductData.vendor := JUndefined;
       ProductData.productType := JUndefined;
       ProductData.status := JUndefined;
       ProductData.tags := JUndefined;
       ProductData.inventory := JUndefined |} in
  ∃ reason,
    createShopifyProduct (platform := Mock.cdn) productData []
      "craft.myshopify.com" "shpat_1" Mock.start =
    (Thrown (Error ("Shopify product creation failed: " +:+ reason)), Mock.start).
Proof.
  intros productData.
  apply (unusable_fields_stop_the_product (platform := Mock.cdn)).
  left. by split.
Defined.

(** A data URL, and a data URL cut short. *)
Lemma sources_are_read_witness :
  readImage (platform := Mock.cdn) (JStr "data:image/png;base64,AAAA") Mock.start =
    (Returned (Buffer_from_base64 (Platform := Mock.cdn) "AAAA"), Mock.start) ∧
  ∃ error,
    readImage (platform := Mock.cdn) (JStr "data:image/png;base64") Mock.start =
    (Thrown error, Mock.start).
Proof.
  destruct (sources_are_read (platform := Mock.cdn) Mock.start)
    as (Hdata & Hcut & _ & _).
  split.
  - exact (proj1 (Hdata "png;base64" "AAAA" eq_refl eq_refl)).
  - exact (Hcut "png;base64" eq_refl).
Defined.

(** [/shop-info] without a token, and with the shop given twice. *)
Lemma shop_info_asks_the_shop_once_witness :
  shopInfo (platform := Mock.cdn) (api := Scenario.answering JNull)
    (JStr "craft.myshopify.com") JUndefined 1700000000000%N =
  (Refused 400 "Missing Parameters" "shopUrl and accessToken are required",
   [], 1700000000000%N) ∧
  snd (fst (shopInfo (platform := Mock.cdn) (api := Scenario.answering JNull)
              (JArr [JStr "a.myshopify.com"; JStr "b.myshopify.com"])
              (JStr "shpat_1") 1700000000000%N)) = [].
Proof.
  split.
  - pose proof (shop_info_asks_the_shop_once (platform := Mock.cdn)
                  (api := Scenario.answering JNull)
                  (JStr "craft.myshopify.com") JUndefined 1700000000000%N) as H.
    destruct (shopInfo _ _ _) as [[reply asked] e'].
    destruct H as (_ & _ & Hmissing & _).
    by destruct (Hmissing (or_intror eq_refl)) as (-> & -> & ->).
  - pose proof (shop_info_asks_the_shop_once (platform := Mock.cdn)
                  (api := Scenario.answering JNull)
                  (JArr [JStr "a.myshopify.com"; JStr "b.myshopify.com"])
                  (JStr "shpat_1") 1700000000000%N) as H.
    destruct (shopInfo _ _ _) as [[reply asked] e'].
    destruct H as (_ & _ & _ & Hodd).
    by destruct (Hodd eq_refl eq_refl I) as [-> _].
Defined.


(** A shop that answers with a body without [shop], and one that rejects. *)
Lemma shop_info_answers_witness :
  (∃ stamp, fst (fst (shopInfo (platform := Mock.cdn)
                        (api := Scenario.answering (JObj ∅))
                        (JStr "craft.myshopify.com") (JStr "shpat_1") 1700000000000%N))
            = ShopInfo JUndefined stamp) ∧
  (∃ stamp, fst (fst (shopInfo (platform := Mock.cdn) (api := Scenario.unauthorized)
                        (JStr "craft.myshopify.com") (JStr "shpat_1") 1700000000000%N))
            = ReadFailed 500 "Shop Info Failed" "Request failed with status code 401" stamp).
Proof.
  split.
  - destruct (shop_info_answers (platform := Mock.cdn)
                (api := Scenario.answering (JObj ∅))
                "craft.myshopify.com" (JStr "shpat_1") 1700000000000%N eq_refl eq_refl)
      as [Hresolved _].
    destruct (Hresolved {| status := 200; data := JObj ∅ |} 1700000000000%N eq_refl)
      as (stamp & e2 & Hrun); [done | done |].
    exists stamp. by rewrite Hrun.
  - destruct (shop_info_answers (platform := Mock.cdn) (api := Scenario.unauthorized)
                "craft.myshopify.com" (JStr "shpat_1") 1700000000000%N eq_refl eq_refl)
      as [_ Hrejected].
    destruct (Hrejected _ 1700000000000%N eq_refl) as (stamp & e2 & Hrun).
    exists stamp. by rewrite Hrun.
Defined.

(** A shop with two products, and a body without [products]. *)
Lemma products_answers_witness :
  (∃ stamp,
     fst (fst (listProducts (platform := Mock.cdn)
                 (api := Scenario.answering
                           (JObj {[ "products" := JArr [JStr "pot"; JStr "jug"] ]}))
                 (JStr "craft.myshopify.com") (JStr "shpat_1") (JStr "20")
                 1700000000000%N))
     = ProductList (JArr [JStr "pot"; JStr "jug"]) (JNum (Number_of_Z 2)) stamp) ∧
  (∃ stamp,
     fst (fst (listProducts (platform := Mock.cdn) (api := Scenario.answering (JObj ∅))
                 (JStr "craft.myshopify.com") (JStr "shpat_1") (JStr "20")
                 1700000000000%N))
     = ReadFailed 500 "Products List Failed"
         "Cannot read properties of undefined (reading 'length')" stamp).
Proof.
  split.
  - destruct (products_answers (platform := Mock.cdn)
                (api := Scenario.answering
                          (JObj {[ "products" := JArr [JStr "pot"; JStr "jug"] ]}))
                "craft.myshopify.com" (JStr "shpat_1") (JStr "20") 1700000000000%N
                (Number_of_Z 20) eq_refl eq_refl eq_refl
                {| status := 200;
                   data := JObj {[ "products" := JArr [JStr "pot"; JStr "jug"] ]} |}
                1700000000000%N eq_refl) as [Harray _].
    destruct (Harray [JStr "pot"; JStr "jug"]) as (stamp & e2 & Hrun);
      [by vm_compute |].
    exists stamp. by rewrite Hrun.
  - destruct (products_answers (platform := Mock.cdn)
                (api := Scenario.answering (JObj ∅))
                "craft.myshopify.com" (JStr "shpat_1") (JStr "20") 1700000000000%N
                (Number_of_Z 20) eq_refl eq_refl eq_refl
                {| status := 200; data := JObj ∅ |}
                1700000000000%N eq_refl) as [_ Hmissing].
    destruct Hmissing as (stamp & e2 & Hrun); [done | done | by vm_compute |].
    exists stamp. by rewrite Hrun.
Defined.

(** The third source of a batch, a buffer. *)
Lemma uploads_are_numbered_jpegs_witness :
  sent (snd (attemptImage (platform := Mock.cdn) 2 (JBuffer [])
               "https://craft.myshopify.com" "shpat_1" Mock.start)) =
  [ uploadRequest "craft.myshopify.com" "shpat_1"
      {| ImageData.buffer := [];
         ImageData.filename := "product_image_3_1700000000000.jpg";
         ImageData.mimetype := "image/jpeg" |} ].
Proof.
  rewrite (uploads_are_numbered_jpegs (platform := Mock.cdn) 2 (JBuffer [])
             "https://craft.myshopify.com" "shpat_1" Mock.start Mock.start [] []
             1700000000000%N 1700000000001%N 1700000000001%N
             eq_refl eq_refl eq_refl).
  by vm_compute.
Defined.

(* ===================================================================== *)
(** ** The batch, source by source *)
(* ===================================================================== *)

Section SourceBySource.
Context {Env : Type} {platform : Platform Env}.

(** One turn of the loop, by what the attempt did. *)
Lemma uploadLoop_step i image rest shopUrl accessToken imageUrls (w : World Env) :
  uploadLoop i (image :: rest) shopUrl accessToken imageUrls w =
  let '(r, w1) := attemptImage i image shopUrl accessToken w in
  uploadLoop (S i) rest shopUrl accessToken
    (imageUrls ++ successes [contribution r])%list w1.
Proof.
  simpl. rewrite run_bind, run_processImage.
  by destruct (attemptImage i image shopUrl accessToken w).
Qed.

(** C3.  The image batch never throws and always hands its result to the
    product creation: it returns the URLs of the sources whose attempt
    succeeded, in order.  A turn whose attempt throws, whatever the
    error, leaves [imageUrls] as it was and the loop carries on with the
    next source, from the world the failed attempt left; a turn whose
    attempt succeeds adds its URL and carries on likewise.  When the
    attempt on every source fails, the batch returns the empty list, the
    route goes on to create the product with it, and (for a description
    that is a string and a price that is a number or a string) the
    product request is sent with no images. *)
Theorem batch_never_fails (body : Body.t) (w : World Env) :
  let shopUrl := Body.shopUrl body in
  let accessToken := Body.accessToken body in
  let outcomes := imageOutcomes (Body.images body) shopUrl accessToken w in
  (∃ w',
     uploadImages (Body.images body) shopUrl accessToken w
       = (Returned (successes outcomes), w') ∧
     publish body w = publishWith body (successes outcomes) w') ∧
  (∀ i image rest imageUrls w0 error w1,
     attemptImage i image shopUrl accessToken w0 = (Thrown error, w1) →
     processImage i image shopUrl accessToken imageUrls w0 = (Returned imageUrls, w1) ∧
     uploadLoop i (image :: rest) shopUrl accessToken imageUrls w0 =
     uploadLoop (S i) rest shopUrl accessToken imageUrls w1) ∧
  (∀ i image rest imageUrls w0 uploadResult w1,
     attemptImage i image shopUrl accessToken w0 = (Returned uploadResult, w1) →
     UploadResult.success uploadResult = true →
     uploadLoop i (image :: rest) shopUrl accessToken imageUrls w0 =
     uploadLoop (S i) rest shopUrl accessToken
       (imageUrls ++ [UploadResult.publicUrl uploadResult])%list w1) ∧
  (Forall (λ o, o = None) outcomes →
   ∃ w',
     uploadImages (Body.images body) shopUrl accessToken w = (Returned [], w') ∧
     publish body w = publishWith body [] w' ∧
     ∀ d, Body.description body = JStr d → priced (Body.price body) →
       ∃ product,
         Product.images product = [] ∧
         sent (snd (publish body w)) =
         (sent w' ++ [productRequest (strip_scheme shopUrl) accessToken product])%list).
Proof.
  intros shopUrl accessToken outcomes.
  pose proof (run_uploadImages (Body.images body) shopUrl accessToken w) as Hrun.
  fold outcomes in Hrun.
  assert (Hpub : publish body w =
            publishWith body (successes outcomes)
              (snd (runImages 0 (Body.images body) shopUrl accessToken w))).
  { rewrite publish_unfold. by apply run_bind_returned. }
  split; [eauto |].
  split.
  { intros i image rest imageUrls w0 error w1 Hattempt. split.
    - rewrite run_processImage, Hattempt. simpl. by rewrite app_nil_r.
    - rewrite uploadLoop_step, Hattempt. simpl. by rewrite app_nil_r. }
  split.
  { intros i image rest imageUrls w0 uploadResult w1 Hattempt Hsuccess.
    rewrite uploadLoop_step, Hattempt. simpl. by rewrite Hsuccess. }
  intros Hfail. rewrite (successes_all_failed _ Hfail) in Hrun, Hpub.
  eexists. split; [exact Hrun |]. split; [exact Hpub |].
  intros d Hd Hprice.
  destruct (productPayload_returns (productDataOf body) [] d
              (snd (runImages 0 (Body.images body) shopUrl accessToken w)) Hd Hprice)
    as (product & Hp & _ & _ & Himg & _).
  exists product. split; [exact Himg |].
  rewrite Hpub, publishWith_sent.
  by apply createShopifyProduct_sends.
Qed.

(** The batch over two lists in a row is the batch over the first, then
    the batch over the second with the numbering carried on. *)
Lemma runImages_app before : ∀ i after shopUrl accessToken (w : World Env),
  runImages i (before ++ after) shopUrl accessToken w =
  let '(o1, w1) := runImages i before shopUrl accessToken w in
  let '(o2, w2) := runImages (i + length before) after shopUrl accessToken w1 in
  ((o1 ++ o2)%list, w2).
Proof.
  induction before as [|image before IH]; intros i after shopUrl accessToken w.
  - simpl. rewrite Nat.add_0_r. by destruct (runImages i after shopUrl accessToken w).
  - simpl. destruct (attemptImage i image shopUrl accessToken w) as [r w1].
    rewrite IH.
    destruct (runImages (S i) before shopUrl accessToken w1) as [o1 w2].
    replace (i + S (length before))%nat with (S i + length before)%nat by lia.
    by destruct (runImages (S i + length before) after shopUrl accessToken w2).
Qed.

(** The batch only adds to the requests sent. *)
Lemma runImages_grows images i shopUrl accessToken (w : World Env) :
  ∃ new, sent (snd (runImages i images shopUrl accessToken w)) = (sent w ++ new)%list.
Proof.
  pose proof (cost_uploadLoop images i shopUrl accessToken [] w) as (new & Hnew & _).
  rewrite run_uploadLoop in Hnew. eauto.
Qed.

(** What the route sends after the batch. *)
Lemma uploadProduct_sent (body : Body.t) (w : World Env) :
  sent (snd (uploadProduct body w)) =
  sent (snd (createShopifyProduct (productDataOf body)
               (successes (imageOutcomes (Body.images body) (Body.shopUrl body)
                             (Body.accessToken body) w))
               (strip_scheme (Body.shopUrl body)) (Body.accessToken body)
               (snd (runImages 0 (Body.images body) (Body.shopUrl body)
                       (Body.accessToken body) w)))).
Proof.
  pose proof (uploadProduct_after_batch body w) as Hroute. cbv zeta in Hroute.
  rewrite Hroute.
  destruct (createShopifyProduct _ _ _ _ _) as [[productResult|error] w2]; simpl.
  - destruct (Date_now (env w2)) as [recorded e3]. by destruct (Date_now e3).
  - by destruct (Date_now (env w2)).
Qed.

(** An attempt whose source is read and re-encoded sends the upload. *)
Lemma attemptImage_uploads
    (i : nat) (image : JsValue) (shopUrl accessToken : string)
    (w w1 : World Env) (imageBuffer processed : Buffer) (stamp : N) (e1 e2 : Env) :
  readImage image w = (Returned imageBuffer, w1) →
  Date_now (env w1) = (stamp, e1) →
  sharp_jpeg imageBuffer e1 = (inl processed, e2) →
  sent (snd (attemptImage i image shopUrl accessToken w)) =
  (sent w1 ++
   [ uploadRequest (strip_scheme shopUrl) accessToken
       {| ImageData.buffer := processed;
          ImageData.filename :=
            "product_image_" +:+ pretty (i + 1)%nat +:+ "_" +:+ pretty stamp +:+ ".jpg";
          ImageData.mimetype := "image/jpeg" |} ])%list.
Proof.
  intros Hread Hnow Hsharp.
  unfold attemptImage. rewrite run_bind, Hread, run_bind.
  unfold now at 1. rewrite Hnow. rewrite run_bind.
  remember ("product_image_" +:+ pretty (i + 1)%nat +:+ "_" +:+ pretty stamp +:+ ".jpg")
    as name eqn:Hn.
  assert (Hname : replace_extension name = name).
  { rewrite Hn, !(append_assoc _ _ ".jpg").
    by rewrite (replace_extension_dotted _ "jpg"). }
  assert (Hprocess :
    processImageForShopify imageBuffer name (mkWorld e1 (sent w1) (session w1)) =
    (Returned {| ImageData.buffer := processed;
                 ImageData.filename := name;
                 ImageData.mimetype := "image/jpeg" |},
     mkWorld e2 (sent w1) (session w1))).
  { unfold processImageForShopify, try_catch, call.
    rewrite run_bind. simpl. by rewrite Hsharp, Hname. }
  rewrite Hprocess. by rewrite uploadImageToShopify_sends.
Qed.

(** C8.  A shop URL given as [http://host] or [https://host] is used as
    [host].  In a run of the route, every source that is read and
    re-encoded has its upload sent to
    [https://host/admin/api/2023-10/uploads.json]; the product request
    (for a description that is a string and a price that is a number or
    a string) is sent, last, to
    [https://host/admin/api/2023-10/products.json]; and every POST of the
    run goes to one of these two URLs. *)
Theorem shop_scheme_stripped (body : Body.t) (host : string) (w : World Env) :
  (Body.shopUrl body = "http://" +:+ host ∨ Body.shopUrl body = "https://" +:+ host) →
  let shopUrl := Body.shopUrl body in
  let accessToken := Body.accessToken body in
  strip_scheme shopUrl = host ∧
  (∀ before image after imageBuffer processed w1 stamp e1 e2,
     Body.images body = (before ++ image :: after)%list →
     readImage image (snd (runImages 0 before shopUrl accessToken w))
       = (Returned imageBuffer, w1) →
     Date_now (env w1) = (stamp, e1) →
     sharp_jpeg imageBuffer e1 = (inl processed, e2) →
     ∃ later,
       sent (snd (uploadProduct body w)) =
       (sent w1 ++
        uploadRequest host accessToken
          {| ImageData.buffer := processed;
             ImageData.filename :=
               "product_image_" +:+ pretty (length before + 1)%nat +:+ "_" +:+
               pretty stamp +:+ ".jpg";
             ImageData.mimetype := "image/jpeg" |} :: later)%list ∧
       url (uploadRequest host accessToken
              {| ImageData.buffer := processed;
                 ImageData.filename :=
                   "product_image_" +:+ pretty (length before + 1)%nat +:+ "_" +:+
                   pretty stamp +:+ ".jpg";
                 ImageData.mimetype := "image/jpeg" |})
       = "https://" +:+ host +:+ "/admin/api/2023-10/uploads.json") ∧
  (∀ d, Body.description body = JStr d → priced (Body.price body) →
     ∃ product,
       sent (snd (uploadProduct body w)) =
       (sent (snd (runImages 0 (Body.images body) shopUrl accessToken w)) ++
        [productRequest host accessToken product])%list ∧
       url (productRequest host accessToken product)
       = "https://" +:+ host +:+ "/admin/api/2023-10/products.json") ∧
  sends_only (posts_to_shop host) w (snd (uploadProduct body w)).
Proof.
  intros Hurl shopUrl accessToken.
  assert (Hstrip : strip_scheme shopUrl = host).
  { unfold shopUrl.
    destruct Hurl as [-> | ->]; [apply strip_scheme_http | apply strip_scheme_https]. }
  split; [exact Hstrip |]. split; [| split].
  - intros before image after imageBuffer processed w1 stamp e1 e2
      Himages Hread Hnow Hsharp.
    pose proof (attemptImage_uploads (length before) image shopUrl accessToken
                  _ w1 imageBuffer processed stamp e1 e2 Hread Hnow Hsharp) as Hupload.
    rewrite Hstrip in Hupload.
    set (request := uploadRequest host accessToken _) in *.
    rewrite uploadProduct_sent.
    pose proof (createShopifyProduct_sends_only (λ _, True) (productDataOf body)
                  (successes (imageOutcomes (Body.images body) shopUrl accessToken w))
                  (strip_scheme shopUrl) accessToken (λ _, I)
                  (snd (runImages 0 (Body.images body) shopUrl accessToken w)))
      as (n3 & H3 & _).
    fold shopUrl accessToken. rewrite H3.
    rewrite Himages, runImages_app.
    destruct (runImages 0 before shopUrl accessToken w) as [o1 w0]. simpl in *.
    destruct (attemptImage (length before) image shopUrl accessToken w0) as [r wA].
    simpl in Hupload.
    destruct (runImages_grows after (S (length before)) shopUrl accessToken wA)
      as [n2 H2].
    destruct (runImages (S (length before)) after shopUrl accessToken wA) as [o2 wB].
    simpl in *. rewrite H2, Hupload.
    exists (n2 ++ n3)%list. split; [| done].
    by rewrite <- !app_assoc.
  - intros d Hd Hprice.
    destruct (productPayload_returns (productDataOf body)
                (successes (imageOutcomes (Body.images body) shopUrl accessToken w)) d
                (snd (runImages 0 (Body.images body) shopUrl accessToken w)) Hd Hprice)
      as (product & Hp & _).
    exists product. split; [| done].
    rewrite uploadProduct_sent. fold shopUrl accessToken. rewrite Hstrip.
    by apply createShopifyProduct_sends.
  - rewrite <- Hstrip. apply uploadProduct_sends_only.
    + split; [done | intros imageData; by left].
    + intros product. by right.
Qed.

End SourceBySource.

(* ===================================================================== *)
(** ** The requests of a run, turn by turn *)
(* ===================================================================== *)

Section Turns.
Context {Env : Type} {platform : Platform Env}.

Lemma readImage_sent image (w : World Env) :
  sent (snd (readImage image w)) = (sent w ++ downloads_of image)%list.
Proof.
  destruct image as [| |b|f|s|b|l|m]; simpl; try by rewrite app_nil_r.
  destruct (startsWith s "data:image/"); simpl.
  - destruct (_ !! _); simpl; by rewrite app_nil_r.
  - destruct (_ || _); simpl; [| by rewrite app_nil_r].
    unfold get_bytes. rewrite run_bind. simpl. unfold call. simpl.
    by destruct (axios_get _ _) as [[bytes|err] e].
Qed.

Lemma downloads_of_length image : (length (downloads_of image) ≤ 1)%nat.
Proof.
  destruct image as [| |b|f|s|b|l|m]; simpl; try lia.
  destruct (_ && _); simpl; lia.
Qed.

Lemma attemptImage_turn i image shopUrl accessToken (w : World Env) :
  ∃ requests,
    sent (snd (attemptImage i image shopUrl accessToken w)) = (sent w ++ requests)%list ∧
    turn_requests (strip_scheme shopUrl) accessToken image requests.
Proof.
  unfold attemptImage. rewrite run_bind.
  pose proof (readImage_sent image w) as Hread.
  destruct (readImage image w) as [[imageBuffer|e] w1]; simpl in Hread.
  2: { exists (downloads_of image). split; [done |].
       exists []. rewrite app_nil_r. split; [done | by left]. }
  rewrite run_bind. unfold now at 1.
  destruct (Date_now (env w1)) as [stamp e1]. rewrite run_bind.
  set (name := "product_image_" +:+ _).
  destruct (cost_processImageForShopify imageBuffer name
              (mkWorld e1 (sent w1) (session w1))) as (new & Hnew & Hlen).
  destruct new as [|r new]; [| simpl in Hlen; lia].
  rewrite app_nil_r in Hnew. simpl in Hnew.
  destruct (processImageForShopify imageBuffer name _) as [[processed|e] w2];
    simpl in Hnew |- *.
  - rewrite uploadImageToShopify_sends, Hnew, Hread.
    exists (downloads_of image ++
            [uploadRequest (strip_scheme shopUrl) accessToken processed])%list.
    split; [by rewrite app_assoc |].
    eexists. split; [reflexivity |]. right. by eexists.
  - exists (downloads_of image). rewrite Hnew, Hread. split; [done |].
    exists []. rewrite app_nil_r. split; [done | by left].
Qed.

Lemma runImages_turns images : ∀ i shopUrl accessToken (w : World Env),
  ∃ turns,
    Forall2 (turn_requests (strip_scheme shopUrl) accessToken) images turns ∧
    sent (snd (runImages i images shopUrl accessToken w)) = (sent w ++ concat turns)%list.
Proof.
  induction images as [|image rest IH]; intros i shopUrl accessToken w.
  - exists []. split; [constructor | by rewrite app_nil_r].
  - simpl.
    destruct (attemptImage_turn i image shopUrl accessToken w) as (turn & Hsent & Hturn).
    destruct (attemptImage i image shopUrl accessToken w) as [r w1]. simpl in Hsent.
    destruct (IH (S i) shopUrl accessToken w1) as (turns & Hturns & Hrest).
    destruct (runImages (S i) rest shopUrl accessToken w1) as [outcomes w2].
    simpl in Hrest |- *.
    exists (turn :: turns). split; [by constructor |].
    by rewrite Hrest, Hsent, <- app_assoc.
Qed.

Lemma turns_length shop accessToken images turns :
  Forall2 (turn_requests shop accessToken) images turns →
  (length (concat turns) ≤ 2 * length images)%nat.
Proof.
  induction 1 as [|image turn images turns (uploads & -> & Huploads) _ IH]; [simpl; lia |].
  simpl. rewrite !length_app.
  pose proof (downloads_of_length image).
  destruct Huploads as [-> | [imageData ->]]; simpl; lia.
Qed.

Lemma createShopifyProduct_closing productData imageUrls shop accessToken
    (w : World Env) :
  ∃ closing,
    sent (snd (createShopifyProduct productData imageUrls shop accessToken w)) =
    (sent w ++ closing)%list ∧
    closing_requests shop accessToken closing.
Proof.
  assert (Hpayload : ∃ r, productPayload productData imageUrls w = (r, w)).
  { unfold productPayload. rewrite run_bind.
    destruct (toString _); simpl; [| eauto].
    rewrite run_bind. destruct (substring_0_160 _); simpl; eauto. }
  destruct Hpayload as [[product|error] Hpayload].
  - exists [productRequest shop accessToken product].
    split; [by apply createShopifyProduct_sends | right; by exists product].
  - exists []. split; [| by left].
    unfold createShopifyProduct, try_catch.
    rewrite run_bind, Hpayload, app_nil_r. simpl.
    by destruct (status_is error 401), (status_is error 422).
Qed.

(** X14.  Nothing is retried and nothing is sent twice.  What a run of
    the route adds to the requests sent is, source by source in input
    order, one turn each: the download of that very source when it is an
    [http://] or [https://] string (and no download otherwise), followed
    by at most one upload to the shop; and, after the turns of all the
    sources, at most one product request.  The image batch alone adds the
    turns and nothing else.  So a run over [n] sources adds at most
    [2 n + 1] requests, and the batch at most [2 n]. *)
Theorem no_request_is_repeated (body : Body.t) (w : World Env) :
  let shop := strip_scheme (Body.shopUrl body) in
  let accessToken := Body.accessToken body in
  let n := length (Body.images body) in
  ∃ turns closing,
    Forall2 (turn_requests shop accessToken) (Body.images body) turns ∧
    closing_requests shop accessToken closing ∧
    sent (snd (uploadImages (Body.images body) (Body.shopUrl body) accessToken w)) =
      (sent w ++ concat turns)%list ∧
    sent (snd (uploadProduct body w)) = (sent w ++ concat turns ++ closing)%list ∧
    (length (concat turns) ≤ 2 * n)%nat ∧
    (length (concat turns ++ closing) ≤ 2 * n + 1)%nat.
Proof.
  intros shop accessToken n.
  destruct (runImages_turns (Body.images body) 0 (Body.shopUrl body) accessToken w)
    as (turns & Hturns & Hbatch).
  destruct (createShopifyProduct_closing (productDataOf body)
              (successes (imageOutcomes (Body.images body) (Body.shopUrl body)
                            accessToken w))
              shop accessToken
              (snd (runImages 0 (Body.images body) (Body.shopUrl body) accessToken w)))
    as (closing & Hclosing & Hshape).
  pose proof (turns_length _ _ _ _ Hturns) as Hlen.
  subst shop accessToken. exists turns, closing.
  split; [exact Hturns |]. split; [exact Hshape |].
  split; [by rewrite run_uploadImages |].
  split; [by rewrite uploadProduct_sent, Hclosing, Hbatch, <- app_assoc |].
  split; [exact Hlen |].
  rewrite length_app. subst n.
  destruct Hshape as [-> | [product ->]]; simpl; lia.
Qed.

End Turns.

(* ===================================================================== *)
(** ** The inventory default *)
(* ===================================================================== *)

Section Inventory.
Context {Env : Type} {platform : Platform Env}.

(** C9, amended.  The variant of the submitted product carries
    [inventory || 1]: the quantity is 1 when the caller's [inventory] is
    falsy (absent, [null], [false], the number zero of either sign, [NaN]
    or the empty string), and it is the caller's [inventory], as given,
    when that is truthy; a non-empty string, such as ['0'], is truthy and
    is submitted as the quantity.  (For a description that is a string
    and a price that is a number or a string; the product request is then
    sent, by the helper and by a run of the route.) *)
Theorem falsy_inventory_becomes_one
    (productData : ProductData.t) (imageUrls : list string)
    (shop accessToken d : string) (w : World Env) :
  ProductData.description productData = JStr d →
  priced (ProductData.price productData) →
  ∃ product priceText quantity,
    sent (snd (createShopifyProduct productData imageUrls shop accessToken w)) =
      (sent w ++ [productRequest shop accessToken product])%list ∧
    Product.variants product =
      [ {| Product.price := priceText;
           Product.inventory_quantity := quantity;
           Product.inventory_management := "shopify";
           Product.inventory_policy := "deny" |} ] ∧
    (truthy (ProductData.inventory productData) = false → quantity = JNum one) ∧
    (truthy (ProductData.inventory productData) = true →
     quantity = ProductData.inventory productData) ∧
    (ProductData.inventory productData = JUndefined → quantity = JNum one) ∧
    (∀ sign, ProductData.inventory productData = JNum (S754_zero sign) →
             quantity = JNum one) ∧
    (∀ s, ProductData.inventory productData = JStr s → s ≠ EmptyString →
          quantity = JStr s) ∧
    (∀ body w0,
       productData = productDataOf body →
       imageUrls = successes (imageOutcomes (Body.images body) (Body.shopUrl body)
                                (Body.accessToken body) w0) →
       shop = strip_scheme (Body.shopUrl body) →
       accessToken = Body.accessToken body →
       w = snd (runImages 0 (Body.images body) (Body.shopUrl body)
                  (Body.accessToken body) w0) →
       sent (snd (uploadProduct body w0)) =
       (sent w ++ [productRequest shop accessToken product])%list).
Proof.
  intros Hd Hprice.
  destruct (productPayload_returns productData imageUrls d w Hd Hprice)
    as (product & Hp & _ & _ & _ & priceText & Hvariants).
  pose proof (createShopifyProduct_sends productData imageUrls shop accessToken
                product w Hp) as Hsent.
  exists product, priceText,
    (or_else (ProductData.inventory productData) (JNum one)).
  split; [exact Hsent |]. split; [exact Hvariants |].
  unfold or_else.
  split; [by intros -> |]. split; [by intros -> |].
  split; [by intros -> |]. split; [by intros sign -> |].
  split.
  - intros s -> Hs. simpl. by destruct s.
  - intros body w0 -> -> -> -> ->. by rewrite uploadProduct_sent.
Qed.

End Inventory.

(** C9, as the specification words it, fails: a caller that gives the
    inventory as the string ['0'] has a product request submitted whose
    quantity is that ['0'], not 1. *)
Lemma string_zero_inventory_is_submitted :
  let body :=
    {| Body.title := JStr "Clay pot";
       Body.description := JStr "A clay pot";
       Body.price := JStr "12.50";
       Body.shopUrl := "craft.myshopify.com";
       Body.accessToken := "shpat_1";
       Body.images := [];
       Body.vendor := JUndefined;
       Body.productType := JUndefined;
       Body.status := JUndefined;
       Body.tags := JUndefined;
       Body.inventory := JStr "0" |} in
  let quantities requests :=
    flat_map (λ r, match payload r with
                   | Json product =>
                       map Product.inventory_quantity (Product.variants product)
                   | _ => []
                   end) requests in
  quantities (sent (snd (uploadProduct (platform := Mock.cdn) body Mock.start)))
    = [JStr "0"] ∧
  ¬ (quantities (sent (snd (uploadProduct (platform := Mock.cdn) body Mock.start)))
       = [JNum one]).
Proof.
  intros body quantities.
  assert (Hsent : quantities (sent (snd (uploadProduct (platform := Mock.cdn) body
                                           Mock.start))) = [JStr "0"])
    by (by vm_compute).
  split; [exact Hsent |]. rewrite Hsent. discriminate.
Qed.

(** C4.  With one image (a PNG file that decodes) whose upload succeeds,
    the product payload lists one image URL (as many as the batch
    produced), and that URL is the upstream one with its scheme untouched
    when the scheme was written [HTTP://] or was [ftp://]: the entry is
    not an [https] URL. *)
Theorem payload_keeps_upstream_scheme :
  let submitted public_url :=
    submitted_image_urls
      (sent (snd (uploadProduct (platform := Scenario.studio public_url)
                    (Mock.listing "craft.myshopify.com"
                       [JStr Scenario.one_pixel_png] "A clay pot")
                    Mock.start))) in
  Scenario.reads_png (Scenario.base64_decode Scenario.one_pixel_base64)
    = inl (Scenario.base64_decode Scenario.one_pixel_base64) ∧
  submitted "HTTP://cdn.shopify.com/s/files/pot.jpg"
    = ["HTTP://cdn.shopify.com/s/files/pot.jpg"] ∧
  forallb is_https (submitted "HTTP://cdn.shopify.com/s/files/pot.jpg") = false ∧
  submitted "ftp://cdn.shopify.com/s/files/pot.jpg"
    = ["ftp://cdn.shopify.com/s/files/pot.jpg"] ∧
  forallb is_https (submitted "ftp://cdn.shopify.com/s/files/pot.jpg") = false.
Proof. by vm_compute. Qed.

(* ===================================================================== *)
(** ** The batch and the shop URL at work on concrete requests *)
(* ===================================================================== *)

(** A batch whose first source fails and whose second is uploaded: the
    loop carries on after the failure and returns the second URL.  And a
    batch in which every source fails: the product request goes out with
    no images. *)
Lemma batch_never_fails_witness :
  let mixed := Mock.listing "https://craft.myshopify.com"
                 [JStr "bogus"; JStr "data:image/png;base64,AAAA"] "A clay pot" in
  let failing := Mock.listing "https://craft.myshopify.com"
                   [JStr "bogus"; JNum one; JStr "https://unreachable.example/pot.png"]
                   "A clay pot" in
  attemptImage (platform := Mock.cdn) 0 (JStr "bogus") (Body.shopUrl mixed)
    (Body.accessToken mixed) Mock.start
    = (Thrown (Error "Invalid image format"), Mock.start) ∧
  uploadLoop (platform := Mock.cdn) 0 (Body.images mixed) (Body.shopUrl mixed)
    (Body.accessToken mixed) [] Mock.start =
  uploadLoop (platform := Mock.cdn) 1 [JStr "data:image/png;base64,AAAA"]
    (Body.shopUrl mixed) (Body.accessToken mixed) [] Mock.start ∧
  (∃ w',
     uploadImages (platform := Mock.cdn) (Body.images mixed) (Body.shopUrl mixed)
       (Body.accessToken mixed) Mock.start =
     (Returned ["https://cdn.shopify.com/s/files/product_image_2_1700000000000.jpg"], w')) ∧
  Forall (λ o, o = None)
    (imageOutcomes (platform := Mock.cdn) (Body.images failing) (Body.shopUrl failing)
       (Body.accessToken failing) Mock.start) ∧
  ∃ w' product,
    uploadImages (platform := Mock.cdn) (Body.images failing) (Body.shopUrl failing)
      (Body.accessToken failing) Mock.start = (Returned [], w') ∧
    Product.images product = [] ∧
    sent (snd (publish (platform := Mock.cdn) failing Mock.start)) =
    (sent w' ++ [productRequest "craft.myshopify.com" "shpat_1" product])%list.
Proof.
  intros mixed failing.
  assert (Hthrown :
    attemptImage (platform := Mock.cdn) 0 (JStr "bogus") (Body.shopUrl mixed)
      (Body.accessToken mixed) Mock.start
    = (Thrown (Error "Invalid image format"), Mock.start)) by reflexivity.
  assert (Hfail : Forall (λ o, o = None)
            (imageOutcomes (platform := Mock.cdn) (Body.images failing)
               (Body.shopUrl failing) (Body.accessToken failing) Mock.start)).
  { vm_compute. repeat constructor. }
  destruct (batch_never_fails (platform := Mock.cdn) mixed Mock.start)
    as ((w' & Hrun & _) & Hskip & _ & _).
  destruct (Hskip 0%nat (JStr "bogus") [JStr "data:image/png;base64,AAAA"] []
              Mock.start _ _ Hthrown) as [_ Hnext].
  destruct (batch_never_fails (platform := Mock.cdn) failing Mock.start)
    as (_ & _ & _ & Hall).
  destruct (Hall Hfail) as (w'' & Hnone & _ & Hsent).
  destruct (Hsent "A clay pot" eq_refl I) as (product & Himages & Hrequest).
  split; [exact Hthrown |]. split; [exact Hnext |].
  split; [exists w'; exact Hrun |]. split; [exact Hfail |].
  exists w'', product.
  split; [exact Hnone |]. split; [exact Himages | exact Hrequest].
Defined.

(** The shop URL given with [http://], and one PNG file to upload: the
    upload goes to [https://craft.myshopify.com/.../uploads.json], then
    the product request to [.../products.json]. *)
Lemma shop_scheme_stripped_witness :
  let body := Mock.listing "http://craft.myshopify.com"
                [JStr Scenario.one_pixel_png] "A clay pot" in
  let run :=
    uploadProduct (platform := Scenario.studio "https://cdn.shopify.com/s/files/pot.jpg")
      body Mock.start in
  (Body.shopUrl body = "http://" +:+ "craft.myshopify.com" ∨
   Body.shopUrl body = "https://" +:+ "craft.myshopify.com") ∧
  strip_scheme (Body.shopUrl body) = "craft.myshopify.com" ∧
  (∃ later,
     sent (snd run) =
     uploadRequest "craft.myshopify.com" "shpat_1"
       {| ImageData.buffer := Scenario.base64_decode Scenario.one_pixel_base64;
          ImageData.filename := "product_image_1_1700000000000.jpg";
          ImageData.mimetype := "image/jpeg" |} :: later) ∧
  (∃ product before,
     sent (snd run) =
     (before ++ [productRequest "craft.myshopify.com" "shpat_1" product])%list) ∧
  sends_only (posts_to_shop "craft.myshopify.com") Mock.start (snd run).
Proof.
  intros body run.
  assert (Hurl : Body.shopUrl body = "http://" +:+ "craft.myshopify.com" ∨
                 Body.shopUrl body = "https://" +:+ "craft.myshopify.com")
    by (left; reflexivity).
  split; [exact Hurl |].
  destruct (shop_scheme_stripped
              (platform := Scenario.studio "https://cdn.shopify.com/s/files/pot.jpg")
              body "craft.myshopify.com" Mock.start Hurl)
    as (Hstrip & Hupload & Hproduct & Hsends).
  split; [exact Hstrip |].
  split; [| split; [| exact Hsends]].
  - destruct (Hupload [] (JStr Scenario.one_pixel_png) []
                (Scenario.base64_decode Scenario.one_pixel_base64)
                (Scenario.base64_decode Scenario.one_pixel_base64)
                Mock.start 1700000000000%N 1700000000001%N 1700000000001%N)
      as (later & Hsent & _).
    + reflexivity.
    + by vm_compute.
    + reflexivity.
    + by vm_compute.
    + exists later. exact Hsent.
  - destruct (Hproduct "A clay pot" eq_refl I) as (product & Hsent & _).
    exists product. eexists. exact Hsent.
Defined.

(** [inventory: 0]. *)
Lemma falsy_inventory_becomes_one_witness :
  let productData :=
    {| ProductData.title := JStr "Clay pot";
       ProductData.description := JStr "A clay pot";
       ProductData.price := JNum one;
       ProductData.vendor := JUndefined;
       ProductData.productType := JUndefined;
       ProductData.status := JUndefined;
       ProductData.tags := JUndefined;
       ProductData.inventory := JNum (S754_zero false) |} in
  ProductData.description productData = JStr "A clay pot" ∧
  priced (ProductData.price productData) ∧
  ∃ product priceText,
    sent (snd (createShopifyProduct (platform := Mock.cdn) productData []
                 "craft.myshopify.com" "shpat_1" Mock.start)) =
      [productRequest "craft.myshopify.com" "shpat_1" product] ∧
    Product.variants product =
      [ {| Product.price := priceText;
           Product.inventory_quantity := JNum one;
           Product.inventory_management := "shopify";
           Product.inventory_policy := "deny" |} ].
Proof.
  intros productData.
  split; [reflexivity |]. split; [exact I |].
  destruct (falsy_inventory_becomes_one (platform := Mock.cdn) productData []
              "craft.myshopify.com" "shpat_1" "A clay pot" Mock.start eq_refl I)
    as (product & priceText & quantity & Hsent & Hvariants & _ & _ & _ & Hzero & _).
  exists product, priceText. split; [exact Hsent |].
  by rewrite Hvariants, (Hzero false eq_refl).
Defined.
